(** * BrandAI: workflow control, critique scoring and refinement policy

    A shallow embedding of the decision logic of the BrandAI backend:

    - [Scorer]      app/agents/critique_agent/scoring/scorer.py
    - [Ranker]      app/agents/critique_agent/scoring/ranker.py
    - [Critique]    app/agents/critique_agent/agent.py and the evaluators'
                    [evaluate] wrappers
    - [Refinement]  app/agents/refinement_agent/agent.py
    - [Orchestrator] app/core/orchestrator.py

    Python floats are modelled as exact rationals ([Q]); equalities between
    scores are therefore stated with [==].  Python [str] is modelled as
    [string] (a byte string), [str.lower] on its ASCII letters.  A [dict]
    read with [.get(key, default)] is a record of optional fields, [None]
    standing for an absent key. *)

From Stdlib Require Import QArith Qminmax Lqa ZArith Lia.
From Stdlib Require Import String Ascii List Bool DecimalString.
From Stdlib Require Import Sorted Permutation.
Import ListNotations.

Open Scope string_scope.
Open Scope Q_scope.

(* ------------------------------------------------------------------ *)
(** ** Python helpers *)

Module Py.

(** [x < y] on floats. *)
Definition ltb (x y : Q) : bool := negb (Qle_bool y x).

(** [x >= y] on floats. *)
Definition geb (x y : Q) : bool := Qle_bool y x.

(** [min(a, b)] and [max(a, b)]: the first argument wins a tie. *)
Definition min (a b : Q) : Q := if ltb b a then b else a.
Definition max (a b : Q) : Q := if ltb a b then b else a.

(** [sum(xs)]: a left fold that starts at [0]. *)
Definition sum (xs : list Q) : Q := fold_left Qplus xs 0.

(** [len(xs)] as a number. *)
Definition len {A : Type} (xs : list A) : Q := inject_Z (Z.of_nat (length xs)).

(** [d.get(key, default)]. *)
Definition get {A : Type} (field : option A) (default : A) : A :=
  match field with
  | Some a => a
  | None => default
  end.

(** [c.lower()] on one byte. *)
Definition lower_ascii (c : ascii) : ascii :=
  let n := nat_of_ascii c in
  if (Nat.leb 65 n && Nat.leb n 90)%bool then ascii_of_nat (n + 32) else c.

(** [s.lower()]. *)
Fixpoint lower (s : string) : string :=
  match s with
  | EmptyString => EmptyString
  | String c rest => String (lower_ascii c) (lower rest)
  end.

(** [kw in text]: substring test. *)
Fixpoint contains (kw text : string) : bool :=
  if String.prefix kw text then true
  else match text with
       | EmptyString => false
       | String _ rest => contains kw rest
       end.

(** [sep.join(parts)]. *)
Definition join (sep : string) (parts : list string) : string :=
  String.concat sep parts.

(** [any(kw in text for kw in keywords)]. *)
Definition any_in (keywords : list string) (text : string) : bool :=
  existsb (fun kw => contains kw text) keywords.

End Py.

(* ------------------------------------------------------------------ *)
(** ** Refinement agent: the strategy decision *)

Module Refinement.

Inductive RefinementStrategy : Type :=
| ENHANCE
| REGENERATE
| APPROVE
| REJECT.

(** [RefinementStrategy.value]. *)
Definition value (s : RefinementStrategy) : string :=
  match s with
  | ENHANCE => "enhance"
  | REGENERATE => "regenerate"
  | APPROVE => "approve"
  | REJECT => "reject"
  end.

(** One entry of a variation's ["scorecard"] list, as a dict. *)
Record Dimension : Type := mkDimension {
  dimension : option string;
  score : option Q;
  feedback : option string;
  issues : option (list string)
}.

(** One entry of ["all_variations"], as a dict. *)
Record Variation : Type := mkVariation {
  overall_score : option Q;
  scorecard : option (list Dimension)
}.

(** The critique report handed to the agent, as a dict. *)
Record CritiqueFeedback : Type := mkFeedback {
  all_variations : option (list Variation)
}.

Definition _get_overall_score (critique_feedback : CritiqueFeedback) : Q :=
  let variations := Py.get (all_variations critique_feedback) [] in
  match variations with
  | v0 :: _ => Py.get (overall_score v0) 0.0
  | [] => 0.0
  end.

(** The [for dimension in scorecard] loop of [_has_critical_safety_issues]. *)
Fixpoint safety_loop (scorecard : list Dimension) : bool :=
  match scorecard with
  | [] => false
  | d :: rest =>
      match dimension d with
      | Some name =>
          if String.eqb name "safety_ethics" then
            if Py.ltb (Py.get (score d) 1.0) 0.3 then true
            else safety_loop rest
          else safety_loop rest
      | None => safety_loop rest
      end
  end.

Definition _has_critical_safety_issues (critique_feedback : CritiqueFeedback)
  : bool :=
  let variations := Py.get (all_variations critique_feedback) [] in
  match variations with
  | [] => false
  | variation :: _ => safety_loop (Py.get (scorecard variation) [])
  end.

Definition simple_issue_keywords : list string :=
  ["blur"; "noise"; "artifact"; "contrast"; "brightness"; "sharp"].

Definition complex_issue_keywords : list string :=
  ["brand"; "logo"; "color"; "message"; "product"; "safety"; "stereotype"].

(** [feedback + " " + " ".join(issues)], with [feedback] already lower-cased
    and the issues taken as they are. *)
Definition all_text (d : Dimension) : string :=
  Py.lower (Py.get (feedback d) "") ++ " "
  ++ Py.join " " (Py.get (issues d) []).

(** The [for dimension in scorecard] loop of [_has_only_simple_issues]. *)
Fixpoint simple_loop (scorecard : list Dimension) : bool :=
  match scorecard with
  | [] => true
  | d :: rest =>
      let dim_name := Py.lower (Py.get (dimension d) "") in
      if (Py.any_in complex_issue_keywords dim_name
          && Py.ltb (Py.get (score d) 1.0) 0.7)%bool
      then false
      else if (Py.any_in complex_issue_keywords (all_text d)
               && Py.ltb (Py.get (score d) 1.0) 0.7)%bool
      then false
      else simple_loop rest
  end.

Definition _has_only_simple_issues (critique_feedback : CritiqueFeedback)
  : bool :=
  let variations := Py.get (all_variations critique_feedback) [] in
  match variations with
  | [] => false
  | variation :: _ => simple_loop (Py.get (scorecard variation) [])
  end.

Definition _determine_strategy (critique_feedback : CritiqueFeedback)
  (media_type : string) : RefinementStrategy :=
  let overall_score := _get_overall_score critique_feedback in
  if _has_critical_safety_issues critique_feedback then REJECT
  else if Py.ltb overall_score 0.3 then REJECT
  else if Py.geb overall_score 0.7 then APPROVE
  else if (String.eqb media_type "image"
           && _has_only_simple_issues critique_feedback)%bool then ENHANCE
  else REGENERATE.

End Refinement.

(* ------------------------------------------------------------------ *)
(** ** Response models (app/models/response.py) *)

Module Models.

Record ScoreCard : Type := mkScoreCard {
  dimension : string;
  score : Q;
  feedback : string;
  issues : option (list string);
  suggestions : option (list string)
}.

Record VariationResult : Type := mkVariationResult {
  variation_id : string;
  file_path : string;
  overall_score : Q;
  scorecard : list ScoreCard;
  passed : bool;
  rank : option Z
}.

Record CritiqueReport : Type := mkCritiqueReport {
  run_id : string;
  total_variations : Z;
  passed_variations : Z;
  failed_variations : Z;
  best_variation : option VariationResult;
  all_variations : list VariationResult
}.

(** [variation.rank = r]. *)
Definition set_rank (v : VariationResult) (r : option Z) : VariationResult :=
  mkVariationResult (variation_id v) (file_path v) (overall_score v)
    (scorecard v) (passed v) r.

End Models.

(* ------------------------------------------------------------------ *)
(** ** Scorer (app/agents/critique_agent/scoring/scorer.py) *)

Module Scorer.

(** A [Dict[str, float]], as its items in insertion order. *)
Definition ScoreDict : Type := list (string * Q).

(** [d.get(key, default)] on a [ScoreDict]. *)
Fixpoint dict_get (d : ScoreDict) (key : string) (default : Q) : Q :=
  match d with
  | [] => default
  | (k, v) :: rest => if String.eqb k key then v else dict_get rest key default
  end.

(** [{dim: 1.0 / n for dim in dimension_scores}]. *)
Definition equal_weights (dimension_scores : ScoreDict) (n : Q) : ScoreDict :=
  map (fun item => (fst item, 1.0 / n)) dimension_scores.

(** [calculate_overall_score].  [for dim in dimension_scores] with
    [dimension_scores[dim]] is read as a walk over the items. *)
Definition calculate_overall_score (dimension_scores : ScoreDict)
  (weights : option ScoreDict) : Q :=
  match dimension_scores with
  | [] => 0.0
  | _ =>
      let weights :=
        match weights with
        | None => equal_weights dimension_scores (Py.len dimension_scores)
        | Some w => w
        end in
      let total_weight :=
        Py.sum (map (fun item => dict_get weights (fst item) 0.0)
                  dimension_scores) in
      let normalized :=
        if Qeq_bool total_weight 0
        then (Py.len dimension_scores,
              equal_weights dimension_scores (Py.len dimension_scores))
        else (total_weight, weights) in
      let total_weight := fst normalized in
      let weights := snd normalized in
      let weighted_sum :=
        Py.sum (map (fun item =>
                       snd item *
                       dict_get weights (fst item)
                         (1.0 / Py.len dimension_scores))
                  dimension_scores) in
      let overall_score :=
        if Py.ltb 0 total_weight then weighted_sum / total_weight else 0.0 in
      Py.max 0.0 (Py.min 1.0 overall_score)
  end.

(** [issues or []]. *)
Definition or_empty (xs : option (list string)) : list string :=
  match xs with
  | Some (x :: rest) => x :: rest
  | _ => []
  end.

Definition create_scorecard (dimension : string) (score : Q)
  (feedback : string) (issues suggestions : option (list string))
  : Models.ScoreCard :=
  Models.mkScoreCard dimension (Py.max 0.0 (Py.min 1.0 score)) feedback
    (Some (or_empty issues)) (Some (or_empty suggestions)).

(** The [for dim, score in dimension_scores.items()] loop of
    [determine_pass_fail]. *)
Fixpoint dimension_loop (items : ScoreDict) (min_dimension : Q) : bool :=
  match items with
  | [] => true
  | (_, score) :: rest =>
      if Py.ltb score min_dimension then false
      else dimension_loop rest min_dimension
  end.

Definition determine_pass_fail (overall_score : Q)
  (dimension_scores : ScoreDict) (min_overall min_dimension : Q) : bool :=
  if Py.ltb overall_score min_overall then false
  else dimension_loop dimension_scores min_dimension.

(** Default arguments of [determine_pass_fail]. *)
Definition min_overall_default : Q := 0.6.
Definition min_dimension_default : Q := 0.4.

End Scorer.

(* ------------------------------------------------------------------ *)
(** ** Ranker (app/agents/critique_agent/scoring/ranker.py) *)

Module Ranker.

Import Models.

(** [sorted(xs, key=key, reverse=True)].  Python's sort is stable, also with
    [reverse=True]: entries with equal keys keep their input order.  The
    output of a stable sort is determined by its input
    ([RankerFacts.stable_sorted_unique]), so a stable insertion sort
    computes the same list. *)
Section Sorted.
Context {A : Type} (key : A -> Q).

Fixpoint insert_desc (x : A) (xs : list A) : list A :=
  match xs with
  | [] => [x]
  | y :: rest =>
      if Py.geb (key x) (key y) then x :: y :: rest
      else y :: insert_desc x rest
  end.

Fixpoint sorted_reverse (xs : list A) : list A :=
  match xs with
  | [] => []
  | x :: rest => insert_desc x (sorted_reverse rest)
  end.
End Sorted.

Definition _calculate_weighted_score (variation : VariationResult) : Q :=
  overall_score variation.

(** [for i, variation in enumerate(ranked): variation.rank = i + 1], with
    [i] the index of the head of [ranked].  The entries of the list are
    taken as distinct objects, as [evaluate_variations] builds them, so the
    assignment is read as an update of one entry. *)
Fixpoint assign_ranks (i : Z) (ranked : list VariationResult)
  : list VariationResult :=
  match ranked with
  | [] => []
  | variation :: rest =>
      set_rank variation (Some (i + 1)%Z) :: assign_ranks (i + 1)%Z rest
  end.

Definition rank_variations (variation_results : list VariationResult)
  (ranking_strategy : string) : list VariationResult :=
  let ranked :=
    if String.eqb ranking_strategy "overall" then
      sorted_reverse overall_score variation_results
    else if String.eqb ranking_strategy "weighted" then
      sorted_reverse _calculate_weighted_score variation_results
    else variation_results in
  assign_ranks 0 ranked.

Definition get_top_variations (variation_results : list VariationResult)
  (top_n : nat) : list VariationResult :=
  firstn top_n (rank_variations variation_results "overall").

Definition get_passed_variations (variation_results : list VariationResult)
  : list VariationResult :=
  filter passed variation_results.

End Ranker.

(* ------------------------------------------------------------------ *)
(** ** Exceptions *)

Module Exc.

(** The result of a call that may raise: a value, or the exception, kept as
    its [str(e)]. *)
Inductive Outcome (A : Type) : Type :=
| Return (a : A)
| Raise (e : string).

Arguments Return {A} a.
Arguments Raise {A} e.

Definition bind {A B : Type} (m : Outcome A) (k : A -> Outcome B)
  : Outcome B :=
  match m with
  | Return a => k a
  | Raise e => Raise e
  end.

End Exc.

Notation "x <- m ;; k" := (Exc.bind m (fun x => k))
  (at level 61, m at next level, right associativity).
Notation "' p <- m ;; k" := (Exc.bind m (fun x => let p := x in k))
  (at level 61, p pattern, m at next level, right associativity).

(* ------------------------------------------------------------------ *)
(** ** Critique agent (app/agents/critique_agent) *)

Module Critique.

Import Exc Models.

(** The dict built by [BaseEvaluator.create_result]; its optional
    ["metadata"] entry is not read by the critique agent and is left out. *)
Record EvalResult : Type := mkEvalResult {
  eval_score : Q;
  eval_feedback : string;
  eval_issues : list string;
  eval_suggestions : list string
}.

(** [BaseEvaluator.create_result]. *)
Definition create_result (score : Q) (feedback : string)
  (issues suggestions : option (list string)) : EvalResult :=
  let score := Py.max 0.0 (Py.min 1.0 score) in
  mkEvalResult score feedback (Scorer.or_empty issues)
    (Scorer.or_empty suggestions).

(** [xs if xs else None]. *)
Definition if_nonempty (xs : list string) : option (list string) :=
  match xs with
  | [] => None
  | _ => Some xs
  end.

(** What a sub-evaluation ([_evaluate_blur], [_evaluate_harmful_content],
    ...) hands back: [(score, feedback, issues)] or
    [(score, feedback, issues, suggestions)].  The analysis behind it is
    external; it either returns such a tuple or raises. *)
Definition Sub3 : Type := Q * string * list string.
Definition Sub4 : Type := Q * string * list string * list string.

(** The outcomes of the twelve sub-evaluations on one ad file. *)
Record Analyses : Type := mkAnalyses {
  logo : Outcome Sub3;
  colors : Outcome Sub4;
  tone : Outcome Sub3;
  blur : Outcome Sub4;
  artifacts : Outcome Sub4;
  composition : Outcome Sub3;
  product_visibility : Outcome Sub4;
  text_clarity : Outcome Sub3;
  message_understanding : Outcome Sub3;
  harmful_content : Outcome Sub3;
  stereotypes : Outcome Sub3;
  misleading_claims : Outcome Sub3
}.

(** [sum(scores) / len(scores) if scores else 0.0]. *)
Definition average (scores : list Q) : Q :=
  match scores with
  | [] => 0.0
  | _ => Py.sum scores / Py.len scores
  end.

(** The [try] block of [BrandEvaluator.evaluate]. *)
Definition brand_try (a : Analyses) : Outcome EvalResult :=
  '(logo_score, logo_feedback, logo_issues) <- logo a ;;
  '(color_score, color_feedback, color_issues, color_suggestions)
     <- colors a ;;
  '(tone_score, tone_feedback, tone_issues) <- tone a ;;
  let scores := [logo_score; color_score; tone_score] in
  let issues := (logo_issues ++ color_issues ++ tone_issues)%list in
  let suggestions := color_suggestions in
  let feedback_parts := [logo_feedback; color_feedback; tone_feedback] in
  let overall_score := average scores in
  let feedback := Py.join " | " feedback_parts in
  Return (create_result overall_score feedback (if_nonempty issues)
            (if_nonempty suggestions)).

(** [BrandEvaluator.evaluate]; [brand_kit] is [true] for a truthy kit. *)
Definition brand_evaluate (brand_kit : bool) (a : Analyses) : EvalResult :=
  if negb brand_kit then
    create_result 0.5 "No brand kit provided for comparison"
      (Some ["Missing brand kit data"]) None
  else
    match brand_try a with
    | Return r => r
    | Raise e =>
        create_result 0.0 ("Error during brand evaluation: " ++ e)
          (Some ["Evaluation error: " ++ e]) None
    end.

(** The [try] block of [QualityEvaluator.evaluate]. *)
Definition quality_try (a : Analyses) : Outcome EvalResult :=
  '(blur_score, blur_feedback, blur_issues, blur_suggestions) <- blur a ;;
  '(artifact_score, artifact_feedback, artifact_issues, artifact_suggestions)
     <- artifacts a ;;
  '(composition_score, composition_feedback, composition_issues)
     <- composition a ;;
  let scores := [blur_score; artifact_score; composition_score] in
  let issues := (blur_issues ++ artifact_issues ++ composition_issues)%list in
  let suggestions := (blur_suggestions ++ artifact_suggestions)%list in
  let feedback_parts :=
    [blur_feedback; artifact_feedback; composition_feedback] in
  let overall_score := average scores in
  let feedback := Py.join " | " feedback_parts in
  Return (create_result overall_score feedback (if_nonempty issues)
            (if_nonempty suggestions)).

(** [QualityEvaluator.evaluate]. *)
Definition quality_evaluate (a : Analyses) : EvalResult :=
  match quality_try a with
  | Return r => r
  | Raise e =>
      create_result 0.0 ("Error during quality evaluation: " ++ e)
        (Some ["Evaluation error: " ++ e]) None
  end.

(** The [try] block of [ClarityEvaluator.evaluate]. *)
Definition clarity_try (a : Analyses) : Outcome EvalResult :=
  '(product_score, product_feedback, product_issues, product_suggestions)
     <- product_visibility a ;;
  '(text_score, text_feedback, text_issues) <- text_clarity a ;;
  '(message_score, message_feedback, message_issues)
     <- message_understanding a ;;
  let scores := [product_score; text_score; message_score] in
  let issues := (product_issues ++ text_issues ++ message_issues)%list in
  let suggestions := product_suggestions in
  let feedback_parts := [product_feedback; text_feedback; message_feedback] in
  let overall_score := average scores in
  let feedback := Py.join " | " feedback_parts in
  Return (create_result overall_score feedback (if_nonempty issues)
            (if_nonempty suggestions)).

(** [ClarityEvaluator.evaluate]. *)
Definition clarity_evaluate (a : Analyses) : EvalResult :=
  match clarity_try a with
  | Return r => r
  | Raise e =>
      create_result 0.0 ("Error during clarity evaluation: " ++ e)
        (Some ["Evaluation error: " ++ e]) None
  end.

(** The [try] block of [SafetyEvaluator.evaluate]. *)
Definition safety_try (a : Analyses) : Outcome EvalResult :=
  '(harmful_score, harmful_feedback, harmful_issues) <- harmful_content a ;;
  '(stereotype_score, stereotype_feedback, stereotype_issues)
     <- stereotypes a ;;
  '(misleading_score, misleading_feedback, misleading_issues)
     <- misleading_claims a ;;
  let scores := [harmful_score; stereotype_score; misleading_score] in
  let issues :=
    (harmful_issues ++ stereotype_issues ++ misleading_issues)%list in
  let feedback_parts :=
    [harmful_feedback; stereotype_feedback; misleading_feedback] in
  let overall_score :=
    match scores with
    | [] => 1.0
    | _ =>
        let overall_score := Py.sum scores / Py.len scores in
        if (Py.ltb harmful_score 0.3 || Py.ltb stereotype_score 0.3)%bool
        then Py.min overall_score 0.3
        else if (Py.ltb harmful_score 0.5 || Py.ltb stereotype_score 0.5)%bool
        then Py.min overall_score 0.5
        else overall_score
    end in
  let feedback := Py.join " | " feedback_parts in
  Return (create_result overall_score feedback (if_nonempty issues) None).

(** [SafetyEvaluator.evaluate]. *)
Definition safety_evaluate (a : Analyses) : EvalResult :=
  match safety_try a with
  | Return r => r
  | Raise e =>
      create_result 0.0 ("Error during safety evaluation: " ++ e)
        (Some ["Evaluation error: " ++ e]) None
  end.

(** [Scorer.create_scorecards_from_evaluations], on the items of the
    [evaluations] dict in insertion order. *)
Definition create_scorecards_from_evaluations
  (evaluations : list (string * EvalResult)) : list ScoreCard :=
  map (fun item =>
         Scorer.create_scorecard (fst item) (eval_score (snd item))
           (eval_feedback (snd item)) (Some (eval_issues (snd item)))
           (Some (eval_suggestions (snd item))))
    evaluations.

(** One entry of [ad_paths], with what the file system and the analyses
    answer for it. *)
Record AdFile : Type := mkAdFile {
  ad_path : string;
  exists_ : bool;
  analyses : Analyses
}.

(** The four evaluator objects the agent holds.  Each [evaluate] is started
    with [executor.submit] and read back with [future.result()], which
    returns what the call returned or raises what it raised. *)
Record Evaluators : Type := mkEvaluators {
  brand_evaluator : AdFile -> Outcome EvalResult;
  quality_evaluator : AdFile -> Outcome EvalResult;
  clarity_evaluator : AdFile -> Outcome EvalResult;
  safety_evaluator : AdFile -> Outcome EvalResult
}.

(** The evaluators of the repository: every [evaluate] returns. *)
Definition evaluators (brand_kit : bool) : Evaluators :=
  mkEvaluators
    (fun ad => Return (brand_evaluate brand_kit (analyses ad)))
    (fun ad => Return (quality_evaluate (analyses ad)))
    (fun ad => Return (clarity_evaluate (analyses ad)))
    (fun ad => Return (safety_evaluate (analyses ad))).

(** [f"var_{i+1}"]. *)
Definition variation_name (i : nat) : string :=
  "var_" ++ NilEmpty.string_of_uint (Nat.to_uint (i + 1)).

(** The body of the [for i, ad_path_str in enumerate(ad_paths)] loop for an
    existing file: the fan-out and the scoring of one variation. *)
Definition evaluate_one (E : Evaluators) (i : nat) (ad : AdFile)
  : Outcome VariationResult :=
  brand_result <- brand_evaluator E ad ;;
  quality_result <- quality_evaluator E ad ;;
  clarity_result <- clarity_evaluator E ad ;;
  safety_result <- safety_evaluator E ad ;;
  let scorecards :=
    create_scorecards_from_evaluations
      [("brand_alignment", brand_result);
       ("visual_quality", quality_result);
       ("message_clarity", clarity_result);
       ("safety_ethics", safety_result)] in
  let dimension_scores :=
    [("brand_alignment", eval_score brand_result);
     ("visual_quality", eval_score quality_result);
     ("message_clarity", eval_score clarity_result);
     ("safety_ethics", eval_score safety_result)] in
  let overall_score :=
    Scorer.calculate_overall_score dimension_scores None in
  let passed :=
    Scorer.determine_pass_fail overall_score dimension_scores
      Scorer.min_overall_default Scorer.min_dimension_default in
  Return (mkVariationResult (variation_name i) (ad_path ad) overall_score
            scorecards passed None).

(** The loop of [evaluate_variations]; [variation_results] is the list
    appended to. *)
Fixpoint evaluate_loop (E : Evaluators) (i : nat) (ad_paths : list AdFile)
  (variation_results : list VariationResult)
  : Outcome (list VariationResult) :=
  match ad_paths with
  | [] => Return variation_results
  | ad :: rest =>
      if negb (exists_ ad) then
        evaluate_loop E (S i) rest variation_results
      else
        variation_result <- evaluate_one E i ad ;;
        evaluate_loop E (S i) rest (variation_results ++ [variation_result])
  end.

(** [sum(1 for v in variation_results if v.passed)]. *)
Fixpoint count_passed (variation_results : list VariationResult) : Z :=
  match variation_results with
  | [] => 0
  | v :: rest =>
      if passed v then (1 + count_passed rest)%Z else count_passed rest
  end.

(** [run_id or "unknown"]. *)
Definition or_unknown (run_id : option string) : string :=
  match run_id with
  | Some (String c rest) => String c rest
  | _ => "unknown"
  end.

(** [CritiqueAgent.evaluate_variations]; the timestamp of the report is
    left out. *)
Definition evaluate_variations (E : Evaluators) (ad_paths : list AdFile)
  (run_id : option string) : Outcome CritiqueReport :=
  variation_results <- evaluate_loop E 0 ad_paths [] ;;
  let ranked_variations :=
    Ranker.rank_variations variation_results "overall" in
  let best_variation :=
    match ranked_variations with
    | best :: _ => Some best
    | [] => None
    end in
  let passed_count := count_passed variation_results in
  let failed_count :=
    (Z.of_nat (length variation_results) - passed_count)%Z in
  Return (mkCritiqueReport (or_unknown run_id)
            (Z.of_nat (length variation_results)) passed_count failed_count
            best_variation ranked_variations).

(** The dict returned by [CritiqueAgent.execute]. *)
Record AgentResult : Type := mkAgentResult {
  success : bool;
  critique_report : option CritiqueReport;
  error : option string
}.

(** [CritiqueAgent.execute]: the [try] around [evaluate_variations]. *)
Definition execute (E : Evaluators) (ad_paths : list AdFile)
  (run_id : option string) : AgentResult :=
  match evaluate_variations E ad_paths run_id with
  | Return report => mkAgentResult true (Some report) None
  | Raise e => mkAgentResult false None (Some e)
  end.

End Critique.

(* ------------------------------------------------------------------ *)
(** ** Orchestrator (app/core/orchestrator.py) *)

Module Orchestrator.

Import Exc.

(** [WorkflowState].  The request inputs that are only handed on to the
    agents (prompt, media type, asset paths, brand kit) and the
    [final_result] slot are left out. *)
Record WorkflowState : Type := mkState {
  run_id : string;
  brand_kit_extracted : bool;
  generated_ad_path : option string;
  generation_success : bool;
  generation_error : option string;
  critique_feedback : option Refinement.CritiqueFeedback;
  critique_success : bool;
  critique_error : option string;
  overall_score : option Q;
  refinement_strategy : option string;
  refined_ad_path : option string;
  refined_prompt : option string;
  refinement_success : bool;
  refinement_error : option string;
  retry_count : Z;
  max_retries : Z;
  workflow_status : string;
  error_message : option string
}.

(** [{**state, key: value}], one key at a time. *)
Definition with_brand_kit_extracted (v : bool) (s : WorkflowState)
  : WorkflowState :=
  mkState (run_id s) v (generated_ad_path s) (generation_success s)
    (generation_error s) (critique_feedback s) (critique_success s)
    (critique_error s) (overall_score s) (refinement_strategy s)
    (refined_ad_path s) (refined_prompt s) (refinement_success s)
    (refinement_error s) (retry_count s) (max_retries s) (workflow_status s)
    (error_message s).

Definition with_generated_ad_path (v : option string) (s : WorkflowState)
  : WorkflowState :=
  mkState (run_id s) (brand_kit_extracted s) v (generation_success s)
    (generation_error s) (critique_feedback s) (critique_success s)
    (critique_error s) (overall_score s) (refinement_strategy s)
    (refined_ad_path s) (refined_prompt s) (refinement_success s)
    (refinement_error s) (retry_count s) (max_retries s) (workflow_status s)
    (error_message s).

Definition with_generation_success (v : bool) (s : WorkflowState)
  : WorkflowState :=
  mkState (run_id s) (brand_kit_extracted s) (generated_ad_path s) v
    (generation_error s) (critique_feedback s) (critique_success s)
    (critique_error s) (overall_score s) (refinement_strategy s)
    (refined_ad_path s) (refined_prompt s) (refinement_success s)
    (refinement_error s) (retry_count s) (max_retries s) (workflow_status s)
    (error_message s).

Definition with_generation_error (v : option string) (s : WorkflowState)
  : WorkflowState :=
  mkState (run_id s) (brand_kit_extracted s) (generated_ad_path s)
    (generation_success s) v (critique_feedback s) (critique_success s)
    (critique_error s) (overall_score s) (refinement_strategy s)
    (refined_ad_path s) (refined_prompt s) (refinement_success s)
    (refinement_error s) (retry_count s) (max_retries s) (workflow_status s)
    (error_message s).

Definition with_critique_feedback (v : option Refinement.CritiqueFeedback)
  (s : WorkflowState) : WorkflowState :=
  mkState (run_id s) (brand_kit_extracted s) (generated_ad_path s)
    (generation_success s) (generation_error s) v (critique_success s)
    (critique_error s) (overall_score s) (refinement_strategy s)
    (refined_ad_path s) (refined_prompt s) (refinement_success s)
    (refinement_error s) (retry_count s) (max_retries s) (workflow_status s)
    (error_message s).

Definition with_critique_success (v : bool) (s : WorkflowState)
  : WorkflowState :=
  mkState (run_id s) (brand_kit_extracted s) (generated_ad_path s)
    (generation_success s) (generation_error s) (critique_feedback s) v
    (critique_error s) (overall_score s) (refinement_strategy s)
    (refined_ad_path s) (refined_prompt s) (refinement_success s)
    (refinement_error s) (retry_count s) (max_retries s) (workflow_status s)
    (error_message s).

Definition with_critique_error (v : option string) (s : WorkflowState)
  : WorkflowState :=
  mkState (run_id s) (brand_kit_extracted s) (generated_ad_path s)
    (generation_success s) (generation_error s) (critique_feedback s)
    (critique_success s) v (overall_score s) (refinement_strategy s)
    (refined_ad_path s) (refined_prompt s) (refinement_success s)
    (refinement_error s) (retry_count s) (max_retries s) (workflow_status s)
    (error_message s).

Definition with_overall_score (v : option Q) (s : WorkflowState)
  : WorkflowState :=
  mkState (run_id s) (brand_kit_extracted s) (generated_ad_path s)
    (generation_success s) (generation_error s) (critique_feedback s)
    (critique_success s) (critique_error s) v (refinement_strategy s)
    (refined_ad_path s) (refined_prompt s) (refinement_success s)
    (refinement_error s) (retry_count s) (max_retries s) (workflow_status s)
    (error_message s).

Definition with_refinement_strategy (v : option string) (s : WorkflowState)
  : WorkflowState :=
  mkState (run_id s) (brand_kit_extracted s) (generated_ad_path s)
    (generation_success s) (generation_error s) (critique_feedback s)
    (critique_success s) (critique_error s) (overall_score s) v
    (refined_ad_path s) (refined_prompt s) (refinement_success s)
    (refinement_error s) (retry_count s) (max_retries s) (workflow_status s)
    (error_message s).

Definition with_refined_ad_path (v : option string) (s : WorkflowState)
  : WorkflowState :=
  mkState (run_id s) (brand_kit_extracted s) (generated_ad_path s)
    (generation_success s) (generation_error s) (critique_feedback s)
    (critique_success s) (critique_error s) (overall_score s)
    (refinement_strategy s) v (refined_prompt s) (refinement_success s)
    (refinement_error s) (retry_count s) (max_retries s) (workflow_status s)
    (error_message s).

Definition with_refined_prompt (v : option string) (s : WorkflowState)
  : WorkflowState :=
  mkState (run_id s) (brand_kit_extracted s) (generated_ad_path s)
    (generation_success s) (generation_error s) (critique_feedback s)
    (critique_success s) (critique_error s) (overall_score s)
    (refinement_strategy s) (refined_ad_path s) v (refinement_success s)
    (refinement_error s) (retry_count s) (max_retries s) (workflow_status s)
    (error_message s).

Definition with_refinement_success (v : bool) (s : WorkflowState)
  : WorkflowState :=
  mkState (run_id s) (brand_kit_extracted s) (generated_ad_path s)
    (generation_success s) (generation_error s) (critique_feedback s)
    (critique_success s) (critique_error s) (overall_score s)
    (refinement_strategy s) (refined_ad_path s) (refined_prompt s) v
    (refinement_error s) (retry_count s) (max_retries s) (workflow_status s)
    (error_message s).

Definition with_refinement_error (v : option string) (s : WorkflowState)
  : WorkflowState :=
  mkState (run_id s) (brand_kit_extracted s) (generated_ad_path s)
    (generation_success s) (generation_error s) (critique_feedback s)
    (critique_success s) (critique_error s) (overall_score s)
    (refinement_strategy s) (refined_ad_path s) (refined_prompt s)
    (refinement_success s) v (retry_count s) (max_retries s)
    (workflow_status s) (error_message s).

Definition with_retry_count (v : Z) (s : WorkflowState)
  : WorkflowState :=
  mkState (run_id s) (brand_kit_extracted s) (generated_ad_path s)
    (generation_success s) (generation_error s) (critique_feedback s)
    (critique_success s) (critique_error s) (overall_score s)
    (refinement_strategy s) (refined_ad_path s) (refined_prompt s)
    (refinement_success s) (refinement_error s) v (max_retries s)
    (workflow_status s) (error_message s).

Definition with_workflow_status (v : string) (s : WorkflowState)
  : WorkflowState :=
  mkState (run_id s) (brand_kit_extracted s) (generated_ad_path s)
    (generation_success s) (generation_error s) (critique_feedback s)
    (critique_success s) (critique_error s) (overall_score s)
    (refinement_strategy s) (refined_ad_path s) (refined_prompt s)
    (refinement_success s) (refinement_error s) (retry_count s) (max_retries
    s) v (error_message s).

Definition with_error_message (v : option string) (s : WorkflowState)
  : WorkflowState :=
  mkState (run_id s) (brand_kit_extracted s) (generated_ad_path s)
    (generation_success s) (generation_error s) (critique_feedback s)
    (critique_success s) (critique_error s) (overall_score s)
    (refinement_strategy s) (refined_ad_path s) (refined_prompt s)
    (refinement_success s) (refinement_error s) (retry_count s) (max_retries
    s) (workflow_status s) v.


(** *** What the agents answer

    The agents are external to the orchestrator: each node calls
    [agent.execute(...)], which returns a result dict or raises. *)

Record BrandKitResult : Type := mkBrandKitResult {
  bk_success : bool;
  bk_error : option string
}.

(** ["variations"] is kept as the [file_path] entry of each variation. *)
Record GenerationResult : Type := mkGenerationResult {
  gen_success : bool;
  gen_variations : list (option string);
  gen_error : option string
}.

Record CritiqueResult : Type := mkCritiqueResult {
  crit_success : bool;
  crit_report : option Refinement.CritiqueFeedback;
  crit_error : option string
}.

Record RefinementResult : Type := mkRefinementResult {
  ref_strategy : option string;
  ref_success : option bool;
  ref_refined_ad_path : option string;
  ref_refined_prompt : option string;
  ref_message : option string
}.

(** The answers of the agents during one run; a node that runs at
    superstep [step] of the graph receives the answer for [step]. *)
Record Agents : Type := mkAgents {
  brand_kit_agent : nat -> Outcome BrandKitResult;
  generation_agent : nat -> Outcome GenerationResult;
  critique_agent : nat -> Outcome CritiqueResult;
  refinement_agent : nat -> Outcome RefinementResult
}.

(** [not s] for an optional string: [None] and [""] are falsy. *)
Definition falsy (s : option string) : bool :=
  match s with
  | None => true
  | Some EmptyString => true
  | Some _ => false
  end.

(** *** Node functions *)

(** The failure return shared by the [else] and [except] branches of
    [brand_kit_node]. *)
Definition brand_kit_failed (error : string) (state : WorkflowState)
  : WorkflowState :=
  with_error_message (Some error)
    (with_workflow_status "failed"
       (with_brand_kit_extracted false state)).

Definition brand_kit_node (A : Agents) (step : nat) (state : WorkflowState)
  : WorkflowState :=
  match brand_kit_agent A step with
  | Return result =>
      if bk_success result then with_brand_kit_extracted true state
      else
        brand_kit_failed
          (Py.get (bk_error result) "Brand kit extraction failed") state
  | Raise e => brand_kit_failed e state
  end.

Definition generation_failed (error : string) (state : WorkflowState)
  : WorkflowState :=
  with_error_message (Some error)
    (with_workflow_status "failed"
       (with_generation_error (Some error)
          (with_generation_success false state))).

Definition generation_node (A : Agents) (step : nat) (state : WorkflowState)
  : WorkflowState :=
  match generation_agent A step with
  | Return result =>
      if gen_success result then
        match gen_variations result with
        | file_path :: _ =>
            with_refined_prompt None
              (with_generation_success true
                 (with_generated_ad_path file_path state))
        | [] => generation_failed "No variations generated" state
        end
      else generation_failed (Py.get (gen_error result) "Generation failed")
             state
  | Raise e => generation_failed e state
  end.

Definition critique_failed (error : string) (state : WorkflowState)
  : WorkflowState :=
  with_error_message (Some error)
    (with_workflow_status "failed"
       (with_critique_error (Some error)
          (with_critique_success false state))).

Definition critique_node (A : Agents) (step : nat) (state : WorkflowState)
  : WorkflowState :=
  if falsy (generated_ad_path state) then
    critique_failed "No generated ad to critique" state
  else
    match critique_agent A step with
    | Return result =>
        if crit_success result then
          match crit_report result with
          | Some critique_feedback =>
              let overall_score :=
                Refinement._get_overall_score critique_feedback in
              with_overall_score (Some overall_score)
                (with_critique_success true
                   (with_critique_feedback (Some critique_feedback) state))
          | None =>
              critique_failed "'NoneType' object has no attribute 'get'"
                state
          end
        else critique_failed (Py.get (crit_error result) "Critique failed")
               state
    | Raise e => critique_failed e state
    end.

Definition refinement_failed (error : string) (state : WorkflowState)
  : WorkflowState :=
  with_error_message (Some error)
    (with_workflow_status "failed"
       (with_refinement_error (Some error)
          (with_refinement_success false state))).

Definition refinement_node (A : Agents) (step : nat) (state : WorkflowState)
  : WorkflowState :=
  match critique_feedback state with
  | None => refinement_failed "Missing critique feedback or generated ad" state
  | Some _ =>
      if falsy (generated_ad_path state) then
        refinement_failed "Missing critique feedback or generated ad" state
      else
        match refinement_agent A step with
        | Return result =>
            let strategy := Py.get (ref_strategy result) "unknown" in
            let success := Py.get (ref_success result) false in
            with_refinement_error
              (if negb success then ref_message result else None)
              (with_refinement_success success
                 (with_refined_prompt (ref_refined_prompt result)
                    (with_refined_ad_path (ref_refined_ad_path result)
                       (with_refinement_strategy (Some strategy) state))))
        | Raise e => refinement_failed e state
        end
  end.

(** *** Decision logic *)

Inductive Route : Type :=
| approve
| regenerate
| enhance
| reject
| end_.

Definition should_continue (state : WorkflowState) : Route :=
  let strategy := refinement_strategy state in
  let retry_count := retry_count state in
  let max_retries := max_retries state in
  if falsy strategy then end_
  else if String.eqb (Py.get strategy "") "approve" then approve
  else if String.eqb (Py.get strategy "") "reject" then reject
  else if String.eqb (Py.get strategy "") "regenerate" then
    if (retry_count >=? max_retries)%Z then end_ else regenerate
  else if String.eqb (Py.get strategy "") "enhance" then enhance
  else end_.

(** *** The workflow graph *)

Inductive Node : Type :=
| brand_kit
| generation
| critique
| refinement.

Definition node_eqb (a b : Node) : bool :=
  match a, b with
  | brand_kit, brand_kit => true
  | generation, generation => true
  | critique, critique => true
  | refinement, refinement => true
  | _, _ => false
  end.

(** [workflow.add_node]: the function behind each node name. *)
Definition node_function (A : Agents) (node : Node)
  : nat -> WorkflowState -> WorkflowState :=
  match node with
  | brand_kit => brand_kit_node A
  | generation => generation_node A
  | critique => critique_node A
  | refinement => refinement_node A
  end.

(** [workflow.add_edge] and [workflow.add_conditional_edges]: the node
    that follows [node] when the graph state is [state]; [None] is [END]. *)
Definition next_node (node : Node) (state : WorkflowState) : option Node :=
  match node with
  | brand_kit => Some generation
  | generation => Some critique
  | critique => Some refinement
  | refinement =>
      match should_continue state with
      | approve => None
      | reject => None
      | regenerate => Some generation
      | enhance => Some critique
      | end_ => None
      end
  end.

(** *** Running the graph: [WorkflowOrchestrator.execute] *)

(** [str(e)] of langgraph's [GraphRecursionError], raised by [stream] when
    the graph has run [recursion_limit] supersteps and a node is still
    scheduled. *)
Definition GraphRecursionError : string := "GraphRecursionError".

(** The body of [for output in self.workflow.stream(initial_state)] on one
    yielded [{node_name: node_state}]: the new [final_state]. *)
Definition on_output (node_name : Node) (node_state : WorkflowState)
  : WorkflowState :=
  if (node_eqb node_name refinement
      && String.eqb (Py.get (refinement_strategy node_state) "")
           "regenerate")%bool
  then with_retry_count (retry_count node_state + 1)%Z node_state
  else node_state.

(** [self.workflow.stream(initial_state)]: the outputs the stream yields,
    in order, and the exception it ends with, if any.

    The compiled graph keeps the workflow state in its own channels.  One
    superstep runs the scheduled node on the state read from the channels,
    stores the dict the node returns into the channels key by key, asks the
    router of the conditional edge, on the stored state, for the next node,
    and yields [{node_name: update}], a dict built for the consumer from
    the values written.  What the consumer does to a yielded dict stays in
    that dict: the next node and the router read the channels.

    [limit] is what is left of the recursion limit of the graph and
    [channels] the state held by the graph. *)
Fixpoint stream (A : Agents) (limit : nat) (step : nat) (node : Node)
  (channels : WorkflowState)
  : list (Node * WorkflowState) * option string :=
  match limit with
  | O => ([], Some GraphRecursionError)
  | S limit' =>
      let update := node_function A node step channels in
      match next_node node update with
      | None => ([(node, update)], None)
      | Some node' =>
          let rest := stream A limit' (S step) node' update in
          ((node, update) :: fst rest, snd rest)
      end
  end.

(** The [for output in ...] loop of [execute]: [final_state] after the
    outputs yielded so far. *)
Definition consume (outputs : list (Node * WorkflowState))
  : option WorkflowState :=
  fold_left (fun _ output => Some (on_output (fst output) (snd output)))
    outputs None.

(** The dict returned by [execute]; the [except] branch leaves the
    optional entries out. *)
Record FinalResult : Type := mkFinalResult {
  final_run_id : string;
  status : string;
  success : bool;
  final_generated_ad_path : option string;
  final_critique_report : option Refinement.CritiqueFeedback;
  final_overall_score : option Q;
  final_retry_count : option Z;
  error : option string
}.

Definition initial_state (run_id : string) (max_retries : Z)
  : WorkflowState :=
  mkState run_id false None false None None false None None None None None
    false None 0%Z max_retries "in_progress" None.

(** [a or b] on optional strings. *)
Definition or_else (a b : option string) : option string :=
  if falsy a then b else a.

(** The "Determine final status" step of [execute]. *)
Definition final_status (max_retries : Z) (final_state : WorkflowState)
  : WorkflowState :=
  let strategy := Py.get (refinement_strategy final_state) "" in
  if String.eqb strategy "approve" then
    with_workflow_status "completed" final_state
  else if String.eqb strategy "reject" then
    with_workflow_status "rejected" final_state
  else if (retry_count final_state >=? max_retries)%Z then
    with_error_message (Some "Maximum retries reached")
      (with_workflow_status "failed" final_state)
  else final_state.

(** [WorkflowOrchestrator.execute]; [recursion_limit] is the recursion
    limit the compiled graph runs under (the default of the library, as
    [execute] passes no config to [stream]). *)
Definition execute (A : Agents) (recursion_limit : nat) (run_id : string)
  (max_retries : Z) : FinalResult :=
  let initial_state := initial_state run_id max_retries in
  let streamed := stream A recursion_limit 0 brand_kit initial_state in
  match snd streamed with
  | None =>
      let final_state :=
        match consume (fst streamed) with
        | Some s => s
        | None =>
            with_error_message (Some "Workflow execution failed")
              (with_workflow_status "failed" initial_state)
        end in
      let final_state := final_status max_retries final_state in
      mkFinalResult run_id (workflow_status final_state)
        (String.eqb (workflow_status final_state) "completed")
        (or_else (refined_ad_path final_state)
           (generated_ad_path final_state))
        (critique_feedback final_state)
        (overall_score final_state)
        (Some (retry_count final_state))
        (error_message final_state)
  | Some e =>
      mkFinalResult run_id "failed" false None None None None (Some e)
  end.

(** Default of the [max_retries] argument of [execute]. *)
Definition max_retries_default : Z := 3%Z.

End Orchestrator.

(* ------------------------------------------------------------------ *)
(** ** Notions used to state the properties *)

Module Statements.

Import Refinement.

(** The scorecard of the top-ranked variation of a critique. *)
Definition top_scorecard (cf : CritiqueFeedback) : list Dimension :=
  match Py.get (all_variations cf) [] with
  | top :: _ => Py.get (scorecard top) []
  | [] => []
  end.

(** A text that [str.lower] leaves as it is. *)
Definition lowercase (s : string) : Prop := Py.lower s = s.

(** Every issue listed for the top-ranked variation is lower-case. *)
Definition lowercase_issues (cf : CritiqueFeedback) : Prop :=
  Forall (fun d => Forall lowercase (Py.get (issues d) []))
    (top_scorecard cf).

(** The text of a scorecard entry, lower-cased as a whole: its feedback
    followed by its issues. *)
Definition entry_text (d : Dimension) : string :=
  Py.lower
    (Py.get (feedback d) "" ++ " " ++ Py.join " " (Py.get (issues d) [])).

(** A scorecard entry that the policy counts as a complex issue: it scores
    below 0.7 and a complex keyword occurs in its lower-cased dimension
    name or in its text. *)
Definition complex_entry (d : Dimension) : Prop :=
  Py.get (score d) 1.0 < 0.7 /\
  (Py.any_in complex_issue_keywords (Py.lower (Py.get (dimension d) ""))
   = true \/
   Py.any_in complex_issue_keywords (entry_text d) = true).

(** The issues flagged for the top-ranked variation, over all dimensions. *)
Definition flagged_issues (cf : CritiqueFeedback) : list string :=
  flat_map (fun d => Py.get (issues d) []) (top_scorecard cf).

(** The simple keyword set as the specification lists it. *)
Definition listed_simple_keywords : list string :=
  ["blur"; "noise"; "contrast"; "brightness"; "artifact"].

(** An issue that matches the simple keyword set and not the complex one. *)
Definition simple_only (issue : string) : bool :=
  (Py.any_in listed_simple_keywords (Py.lower issue)
   && negb (Py.any_in complex_issue_keywords (Py.lower issue)))%bool.

(** An issue that matches neither keyword set. *)
Definition unclassified (issue : string) : bool :=
  (negb (Py.any_in listed_simple_keywords (Py.lower issue))
   && negb (Py.any_in complex_issue_keywords (Py.lower issue)))%bool.

(** The sum, the arithmetic mean and the minimum of a list of scores, and
    the clamp to the interval [[0, 1]]. *)
Definition total (xs : list Q) : Q := fold_right Qplus 0 xs.

Definition mean (xs : list Q) : Q :=
  total xs / inject_Z (Z.of_nat (length xs)).

Definition clamp (x : Q) : Q := Qmax 0 (Qmin 1 x).

Fixpoint minimum (x : Q) (xs : list Q) : Q :=
  match xs with
  | [] => x
  | y :: rest => Qmin x (minimum y rest)
  end.

(** The dimension scores of a score dict, and the least of them (1 for an
    empty dict). *)
Definition scores (ds : Scorer.ScoreDict) : list Q := map snd ds.

Definition min_score (ds : Scorer.ScoreDict) : Q :=
  match scores ds with
  | [] => 1
  | x :: rest => minimum x rest
  end.

(** The sum of the supplied weights over the dimensions present, as
    [calculate_overall_score] takes it. *)
Definition weight_sum (ds weights : Scorer.ScoreDict) : Q :=
  Py.sum (map (fun item => Scorer.dict_get weights (fst item) 0.0) ds).

(** A variation result without its rank: ranking changes nothing else. *)
Definition unranked (v : Models.VariationResult) : Models.VariationResult :=
  Models.set_rank v None.

(** The variations whose overall score equals [q]. *)
Definition scored (q : Q) (v : Models.VariationResult) : bool :=
  Qeq_bool (Models.overall_score v) q.

(** The ranks [1 .. n]. *)
Definition ranks_upto (n : nat) : list (option Z) :=
  map (fun k => Some (Z.of_nat k)) (seq 1 n).











End Statements.

(* ------------------------------------------------------------------ *)
(** ** Concrete inputs *)

Module Inputs.

Import Refinement.

Definition entry (name : string) (s : Q) (text : string)
  (found : list string) : Dimension :=
  mkDimension (Some name) (Some s) (Some text) (Some found).

Definition critique (overall : Q) (entries : list Dimension)
  : CritiqueFeedback :=
  mkFeedback (Some [mkVariation (Some overall) (Some entries)]).

(** Overall 0.9 with a safety score of 0.2. *)
Definition unsafe_but_polished : CritiqueFeedback :=
  critique 0.9
    [entry "brand_alignment" 1.0 "on brand" [];
     entry "visual_quality" 1.0 "crisp" [];
     entry "message_clarity" 1.0 "clear" [];
     entry "safety_ethics" 0.2 "harmful imagery" ["violent scene"]].

(** A critique with no variation. *)
Definition no_variation : CritiqueFeedback := mkFeedback (Some []).

(** A mid-range critique whose only flagged issue is about composition:
    it matches neither keyword set. *)
Definition off_centre : CritiqueFeedback :=
  critique 0.5
    [entry "visual_quality" 0.5 "composition is unbalanced"
       ["subject is off-centre"];
     entry "safety_ethics" 1.0 "no harmful content detected" []].

(** A mid-range critique whose issues only mention blur, with a low brand
    alignment score. *)
Definition blurred : CritiqueFeedback :=
  critique 0.675
    [entry "brand_alignment" 0.5 "slightly out of focus"
       ["blur in the background"];
     entry "visual_quality" 0.5 "soft edges" ["blur on the subject"];
     entry "message_clarity" 0.7 "readable" [];
     entry "safety_ethics" 1.0 "no harmful content detected" []].

(** A mid-range critique of a blurred picture, scored on quality only. *)
Definition soft_focus : CritiqueFeedback :=
  critique 0.5
    [entry "visual_quality" 0.5 "soft edges" ["blur on the subject"]].

(** Four good dimensions. *)
Definition all_good : Scorer.ScoreDict :=
  [("brand_alignment", 0.9); ("visual_quality", 0.9);
   ("message_clarity", 0.9); ("safety_ethics", 0.9)].

(** A good average with one dimension below the floor. *)
Definition one_bad : Scorer.ScoreDict :=
  [("brand_alignment", 0.2); ("visual_quality", 0.9);
   ("message_clarity", 0.9); ("safety_ethics", 0.9)].

(** Two dimensions at 0.8, and weights that sum to zero. *)
Definition two_dims : Scorer.ScoreDict :=
  [("brand_alignment", 0.8); ("visual_quality", 0.8)].

Definition zero_weights : Scorer.ScoreDict :=
  [("brand_alignment", 0.0); ("visual_quality", 0.0)].

Definition variation (name : string) (overall : Q)
  : Models.VariationResult :=
  Models.mkVariationResult name (name ++ ".png") overall [] true None.

(** Three variations scoring 0.8, 0.8 and 0.6, in that order. *)
Definition three_variations : list Models.VariationResult :=
  [variation "var_1" 0.8; variation "var_2" 0.8; variation "var_3" 0.6].

(** Analyses that all answer. *)
Definition analyses_fine : Critique.Analyses :=
  Critique.mkAnalyses
    (Exc.Return (0.9, "logo found", []))
    (Exc.Return (0.8, "palette respected", [], []))
    (Exc.Return (0.7, "tone fits", []))
    (Exc.Return (0.9, "sharp", [], []))
    (Exc.Return (0.8, "clean", [], []))
    (Exc.Return (0.7, "balanced", []))
    (Exc.Return (0.9, "product visible", [], []))
    (Exc.Return (0.8, "text readable", []))
    (Exc.Return (0.7, "message understood", []))
    (Exc.Return (1.0, "no harmful content", []))
    (Exc.Return (1.0, "no stereotypes", []))
    (Exc.Return (1.0, "no misleading claims", [])).

(** The same analyses, with the harmful-content check raising. *)
Definition analyses_safety_down : Critique.Analyses :=
  Critique.mkAnalyses
    (Exc.Return (0.9, "logo found", []))
    (Exc.Return (0.8, "palette respected", [], []))
    (Exc.Return (0.7, "tone fits", []))
    (Exc.Return (0.9, "sharp", [], []))
    (Exc.Return (0.8, "clean", [], []))
    (Exc.Return (0.7, "balanced", []))
    (Exc.Return (0.9, "product visible", [], []))
    (Exc.Return (0.8, "text readable", []))
    (Exc.Return (0.7, "message understood", []))
    (Exc.Raise "vision service timed out")
    (Exc.Return (1.0, "no stereotypes", []))
    (Exc.Return (1.0, "no misleading claims", [])).

Definition ad_fine : Critique.AdFile :=
  Critique.mkAdFile "ads/ad_1.png" true analyses_fine.

Definition ad_missing : Critique.AdFile :=
  Critique.mkAdFile "ads/ad_2.png" false analyses_fine.

Definition ad_safety_down : Critique.AdFile :=
  Critique.mkAdFile "ads/ad_3.png" true analyses_safety_down.

(** The report on the three files above. *)
Definition sample_report : Models.CritiqueReport :=
  Eval vm_compute in
    match Critique.evaluate_variations (Critique.evaluators true)
            [ad_fine; ad_missing; ad_safety_down] (Some "run_1") with
    | Exc.Return report => report
    | Exc.Raise _ => Models.mkCritiqueReport "" 0 0 0 None []
    end.

(** Evaluators whose safety [evaluate] itself raises. *)
Definition evaluators_safety_raising : Critique.Evaluators :=
  Critique.mkEvaluators
    (Critique.brand_evaluator (Critique.evaluators true))
    (Critique.quality_evaluator (Critique.evaluators true))
    (Critique.clarity_evaluator (Critique.evaluators true))
    (fun _ => Exc.Raise "safety evaluator crashed").

(** A run in which every stage succeeds and the refinement agent asks for a
    regeneration each time, as it does for a video whose critique stays
    mid-range. *)
Definition always_regenerate : Orchestrator.Agents :=
  Orchestrator.mkAgents
    (fun _ => Exc.Return (Orchestrator.mkBrandKitResult true None))
    (fun _ =>
       Exc.Return
         (Orchestrator.mkGenerationResult true [Some "ads/ad_1.mp4"] None))
    (fun _ =>
       Exc.Return (Orchestrator.mkCritiqueResult true (Some soft_focus) None))
    (fun _ =>
       Exc.Return
         (Orchestrator.mkRefinementResult (Some "regenerate") (Some true)
            None (Some "a sharper product shot")
            (Some "Prompt refined for regeneration"))).

(** A run whose first refinement pass approves the ad. *)
Definition approve_at_once : Orchestrator.Agents :=
  Orchestrator.mkAgents
    (Orchestrator.brand_kit_agent always_regenerate)
    (Orchestrator.generation_agent always_regenerate)
    (Orchestrator.critique_agent always_regenerate)
    (fun _ =>
       Exc.Return
         (Orchestrator.mkRefinementResult (Some "approve") (Some true)
            (Some "ads/ad_1.mp4") None
            (Some "Ad meets quality standards, no refinement needed"))).

(** A run whose refinement agent asks for two regenerations (supersteps 3
    and 6) and then approves. *)
Definition approve_at_third : Orchestrator.Agents :=
  Orchestrator.mkAgents
    (Orchestrator.brand_kit_agent always_regenerate)
    (Orchestrator.generation_agent always_regenerate)
    (Orchestrator.critique_agent always_regenerate)
    (fun step =>
       if Nat.ltb step 9
       then Orchestrator.refinement_agent always_regenerate step
       else Orchestrator.refinement_agent approve_at_once step).

End Inputs.

(* ------------------------------------------------------------------ *)
(** ** Refinement agent: the rest of app/agents/refinement_agent *)

Module RefinementAgent.

Import Exc Refinement.

(** The [for dimension in scorecard] loop of [_get_critical_issues]. *)
Fixpoint critical_loop (scorecard : list Dimension) : list string :=
  match scorecard with
  | [] => []
  | d :: rest =>
      if Py.ltb (Py.get (score d) 1.0) 0.5 then
        let dim_name := Py.get (dimension d) "" in
        let dim_issues := Py.get (issues d) [] in
        (dim_name ++ ": "
         ++ match dim_issues with
            | [] => "Low score"
            | _ => Py.join ", " dim_issues
            end)
        :: critical_loop rest
      else critical_loop rest
  end.

Definition _get_critical_issues (critique_feedback : CritiqueFeedback)
  : list string :=
  match Py.get (all_variations critique_feedback) [] with
  | [] => []
  | variation :: _ => critical_loop (Py.get (scorecard variation) [])
  end.

(** The [enhancements] dict of [_determine_enhancements]; its keys in
    insertion order. *)
Record Enhancements : Type := mkEnhancements {
  sharpen : bool;
  denoise : bool;
  contrast : bool;
  brightness : bool
}.

(** [feedback + " " + " ".join(issues).lower()], with [feedback] already
    lower-cased. *)
Definition enhancement_text (d : Dimension) : string :=
  Py.lower (Py.get (feedback d) "") ++ " "
  ++ Py.lower (Py.join " " (Py.get (issues d) [])).

(** The [for dimension in scorecard] loop of [_determine_enhancements]. *)
Fixpoint enhancements_loop (scorecard : list Dimension)
  (enhancements : Enhancements) : Enhancements :=
  match scorecard with
  | [] => enhancements
  | d :: rest =>
      let all_text := enhancement_text d in
      let enhancements :=
        if Py.any_in ["blur"; "blurry"; "unsharp"; "soft"] all_text
        then mkEnhancements true (denoise enhancements)
               (contrast enhancements) (brightness enhancements)
        else enhancements in
      let enhancements :=
        if Py.any_in ["noise"; "noisy"; "artifact"; "grain"] all_text
        then mkEnhancements (sharpen enhancements) true
               (contrast enhancements) (brightness enhancements)
        else enhancements in
      let enhancements :=
        if Py.any_in ["contrast"; "flat"; "dull"] all_text
        then mkEnhancements (sharpen enhancements) (denoise enhancements)
               true (brightness enhancements)
        else enhancements in
      let enhancements :=
        if Py.any_in ["bright"; "dark"; "brightness"; "exposure"] all_text
        then mkEnhancements (sharpen enhancements) (denoise enhancements)
               (contrast enhancements) true
        else enhancements in
      enhancements_loop rest enhancements
  end.

Definition _determine_enhancements (critique_feedback : CritiqueFeedback)
  : Enhancements :=
  let enhancements := mkEnhancements false false false false in
  match Py.get (all_variations critique_feedback) [] with
  | [] => enhancements
  | variation :: _ =>
      enhancements_loop (Py.get (scorecard variation) []) enhancements
  end.

(** [any(enhancements.values())]. *)
Definition any_enhancement (e : Enhancements) : bool :=
  (sharpen e || denoise e || contrast e || brightness e)%bool.

(** [[k for k, v in enhancements.items() if v]]. *)
Definition enabled (e : Enhancements) : list string :=
  ((if sharpen e then ["sharpen"] else [])
   ++ (if denoise e then ["denoise"] else [])
   ++ (if contrast e then ["contrast"] else [])
   ++ (if brightness e then ["brightness"] else []))%list.

(** The dict returned by [ImageEnhancer.enhance_image] (utils.py). *)
Record EnhancerResult : Type := mkEnhancerResult {
  enh_success : bool;
  enh_error : option string;
  enh_input_path : option string;
  enh_output_path : option string;
  enhancements_applied : option (list string)
}.

(** [ImageEnhancer.enhance_image].  The OpenCV work is external: [cv] is
    [Return false] when [cv2.imread] gives no image, [Return true] when the
    image is read, filtered and written, and [Raise e] when one of these
    steps raises. *)
Definition enhance_image (cv : Outcome bool) (image_path output_path : string)
  (enhancements : Enhancements) : EnhancerResult :=
  match cv with
  | Return false =>
      mkEnhancerResult false (Some ("Failed to load image: " ++ image_path))
        None None None
  | Return true =>
      mkEnhancerResult true None (Some image_path) (Some output_path)
        (Some (enabled enhancements))
  | Raise e => mkEnhancerResult false (Some e) None None None
  end.

(** The dict returned by [PromptRefiner.refine_prompt]; the refiner asks a
    language model and is external. *)
Record RefinerResult : Type := mkRefinerResult {
  refiner_success : bool;
  refiner_refined_prompt : option string;
  refiner_improvements : option (list string);
  refiner_addressed_issues : option (list string);
  refiner_error : option string
}.

(** The ["metadata"] entry of a result. *)
Inductive Metadata : Type :=
| OriginalScore (original_score : Q)
| CriticalIssues (found : list string)
| Enhancer (result : EnhancerResult)
| Improvements (improvements addressed_issues : list string).

(** The dict returned by [RefinementAgent.execute]. *)
Record Result : Type := mkResult {
  success : bool;
  strategy : string;
  message : string;
  refined_ad_path : option string;
  refined_prompt : option string;
  metadata : option Metadata
}.

(** [if x: result[key] = x] for a string. *)
Definition if_truthy (x : option string) : option string :=
  match x with
  | Some (String c rest) => Some (String c rest)
  | _ => None
  end.

Definition _create_result (success : bool) (strategy message : string)
  (refined_ad_path refined_prompt : option string)
  (metadata : option Metadata) : Result :=
  mkResult success strategy message (if_truthy refined_ad_path)
    (if_truthy refined_prompt) metadata.

(** [_enhance_ad].  [output_path] is the path pathlib builds,
    [parent / f"{stem}_enhanced{suffix}"], or the exception raised on the
    way; [cv] is the OpenCV outcome of [enhance_image]. *)
Definition _enhance_ad (ad_path : string)
  (critique_feedback : CritiqueFeedback) (media_type : string)
  (output_path : Outcome string) (cv : Outcome bool) : Result :=
  if negb (String.eqb media_type "image") then
    _create_result false "enhance"
      "Enhancement only supported for images, not videos" (Some ad_path)
      None None
  else
    let enhancements := _determine_enhancements critique_feedback in
    if negb (any_enhancement enhancements) then
      _create_result false "enhance" "No applicable enhancements identified"
        (Some ad_path) None None
    else
      match output_path with
      | Raise e =>
          _create_result false "enhance" ("Enhancement error: " ++ e)
            (Some ad_path) None None
      | Return output_path =>
          let result := enhance_image cv ad_path output_path enhancements in
          if enh_success result then
            _create_result true "enhance"
              ("Image enhanced: "
               ++ Py.join ", " (Py.get (enhancements_applied result) []))
              (Some output_path) None (Some (Enhancer result))
          else
            _create_result false "enhance"
              ("Enhancement failed: "
               ++ Py.get (enh_error result) "Unknown error")
              (Some ad_path) None None
      end.

(** [_refine_prompt_for_regeneration]; [refined] is what
    [prompt_refiner.refine_prompt] returns or raises. *)
Definition _refine_prompt_for_regeneration (original_prompt : string)
  (refined : Outcome RefinerResult) : Result :=
  match refined with
  | Return result =>
      if refiner_success result then
        _create_result true "regenerate" "Prompt refined for regeneration"
          None
          (Some (Py.get (refiner_refined_prompt result) original_prompt))
          (Some (Improvements (Py.get (refiner_improvements result) [])
                   (Py.get (refiner_addressed_issues result) [])))
      else
        _create_result false "regenerate"
          ("Prompt refinement failed: "
           ++ Py.get (refiner_error result) "Unknown error")
          None (Some original_prompt) None
  | Raise e =>
      _create_result false "regenerate" ("Prompt refinement error: " ++ e)
        None (Some original_prompt) None
  end.

(** What the collaborators of the agent answer during one [execute]. *)
Record World : Type := mkWorld {
  output_path : Outcome string;
  cv : Outcome bool;
  refined : Outcome RefinerResult
}.

(** [RefinementAgent.execute]. *)
Definition execute (ad_path : string) (critique_feedback : CritiqueFeedback)
  (original_prompt : string) (media_type : string) (w : World) : Result :=
  match _determine_strategy critique_feedback media_type with
  | APPROVE =>
      _create_result true "approve"
        "Ad meets quality standards, no refinement needed" (Some ad_path)
        None (Some (OriginalScore (_get_overall_score critique_feedback)))
  | REJECT =>
      _create_result false "reject"
        "Ad has critical issues that cannot be fixed automatically"
        (Some ad_path) None
        (Some (CriticalIssues (_get_critical_issues critique_feedback)))
  | ENHANCE =>
      _enhance_ad ad_path critique_feedback media_type (output_path w) (cv w)
  | REGENERATE =>
      _refine_prompt_for_regeneration original_prompt (refined w)
  end.

(** The result dict as [refinement_node] reads it. *)
Definition as_node_result (result : Result) : Orchestrator.RefinementResult :=
  Orchestrator.mkRefinementResult (Some (strategy result))
    (Some (success result)) (refined_ad_path result) (refined_prompt result)
    (Some (message result)).

End RefinementAgent.

(* ------------------------------------------------------------------ *)
(** ** Comparator (app/agents/critique_agent/scoring/comparator.py) *)

Module Comparator.

Import Models.





End Comparator.

(* ------------------------------------------------------------------ *)
(** ** From the critique report to the refinement agent *)

Module Handoff.

(** [critique_report.model_dump()], as far as the refinement agent reads
    it.  Every field of a model is a key of the dumped dict.  A ScoreCard
    whose [issues] is [None] dumps to that value under its key, which the
    record below does not tell from a missing key; the ScoreCards that
    [create_scorecard] builds always carry a list. *)
Definition dump_scorecard (c : Models.ScoreCard) : Refinement.Dimension :=
  Refinement.mkDimension (Some (Models.dimension c)) (Some (Models.score c))
    (Some (Models.feedback c)) (Models.issues c).

Definition dump_variation (v : Models.VariationResult)
  : Refinement.Variation :=
  Refinement.mkVariation (Some (Models.overall_score v))
    (Some (map dump_scorecard (Models.scorecard v))).

Definition model_dump (report : Models.CritiqueReport)
  : Refinement.CritiqueFeedback :=
  Refinement.mkFeedback
    (Some (map dump_variation (Models.all_variations report))).

End Handoff.

(* ------------------------------------------------------------------ *)
(** ** Further notions used to state properties *)

Module Notions.

Import Statements.

(** A score within the unit interval. *)
Definition in_unit (q : Q) : Prop := 0 <= q /\ q <= 1.






(** The identifiers [var_{i+1}] of the files that exist, [i] counting every
    entry of the input list from the given start. *)
Fixpoint existing_names (i : nat) (ads : list Critique.AdFile)
  : list string :=
  match ads with
  | [] => []
  | ad :: rest =>
      if Critique.exists_ ad
      then Critique.variation_name i :: existing_names (S i) rest
      else existing_names (S i) rest
  end.

(** The report on no variation. *)
Definition empty_report (run_id : option string) : Models.CritiqueReport :=
  Models.mkCritiqueReport (Critique.or_unknown run_id) 0 0 0 None [].

End Notions.

(* ------------------------------------------------------------------ *)
(** ** Further concrete inputs *)

Module Examples.

(** Analyses that all answer, with a harmful-content score of 0.2. *)
Definition analyses_harmful : Critique.Analyses :=
  Critique.mkAnalyses
    (Critique.logo Inputs.analyses_fine)
    (Critique.colors Inputs.analyses_fine)
    (Critique.tone Inputs.analyses_fine)
    (Critique.blur Inputs.analyses_fine)
    (Critique.artifacts Inputs.analyses_fine)
    (Critique.composition Inputs.analyses_fine)
    (Critique.product_visibility Inputs.analyses_fine)
    (Critique.text_clarity Inputs.analyses_fine)
    (Critique.message_understanding Inputs.analyses_fine)
    (Exc.Return (0.2, "violent scene", ["violence"]))
    (Exc.Return (1.0, "no stereotypes", []))
    (Exc.Return (1.0, "no misleading claims", [])).

Definition ad_harmful : Critique.AdFile :=
  Critique.mkAdFile "ads/ad_4.png" true analyses_harmful.

End Examples.

(* ------------------------------------------------------------------ *)
(** ** Runs of the workflow: notions and inputs *)

Module Runs.

Import Exc Orchestrator.










(** Collaborators of the refinement agent: the enhanced file can be
    written, the language model is down. *)
Definition world : RefinementAgent.World :=
  RefinementAgent.mkWorld (Return "ads/ad_1_enhanced.png"%string)
    (Return true) (Raise "language model unavailable"%string).

(** The refinement stage played by the refinement agent of the
    repository. *)
Definition repository_refinement (ad_path : string)
  (critique_feedback : Refinement.CritiqueFeedback) (media_type : string)
  : Outcome RefinementResult :=
  Return
    (RefinementAgent.as_node_result
       (RefinementAgent.execute ad_path critique_feedback "a product shot"
          media_type world)).

(** An image whose critique stays at "soft edges": the refinement agent
    sharpens it each time. *)
Definition always_enhance : Agents :=
  mkAgents
    (brand_kit_agent Inputs.always_regenerate)
    (fun _ => Return (mkGenerationResult true [Some "ads/ad_1.png"%string]
                        None))
    (critique_agent Inputs.always_regenerate)
    (fun _ =>
       repository_refinement "ads/ad_1.png" Inputs.soft_focus "image").



End Runs.

(* ------------------------------------------------------------------ *)
(** * Properties *)

(** ** Python helpers *)

Module PyFacts.

Lemma ltb_true x y : Py.ltb x y = true <-> x < y.
Proof.
  unfold Py.ltb. rewrite negb_true_iff.
  split; intro H.
  - apply Qnot_le_lt. intro L. apply Qle_bool_iff in L. congruence.
  - destruct (Qle_bool y x) eqn:E; trivial.
    apply Qle_bool_iff in E. lra.
Qed.

Lemma ltb_false x y : Py.ltb x y = false <-> y <= x.
Proof.
  unfold Py.ltb. rewrite negb_false_iff. apply Qle_bool_iff.
Qed.

Lemma geb_true x y : Py.geb x y = true <-> y <= x.
Proof. apply Qle_bool_iff. Qed.

Lemma geb_false x y : Py.geb x y = false <-> x < y.
Proof.
  unfold Py.geb. split; intro H.
  - apply Qnot_le_lt. intro L. apply Qle_bool_iff in L. congruence.
  - destruct (Qle_bool y x) eqn:E; trivial.
    apply Qle_bool_iff in E. lra.
Qed.

Lemma lower_app a b : Py.lower (a ++ b) = Py.lower a ++ Py.lower b.
Proof.
  induction a as [| c a IH]; simpl; [reflexivity | now rewrite IH].
Qed.

Lemma lower_join parts :
  Forall (fun p => Py.lower p = p) parts ->
  Py.lower (Py.join " " parts) = Py.join " " parts.
Proof.
  unfold Py.join.
  induction 1 as [| p parts Hp Hrest IH]; [reflexivity |].
  destruct parts as [| q parts]; [exact Hp |].
  change (String.concat " " (p :: q :: parts))
    with (p ++ " " ++ String.concat " " (q :: parts)).
  rewrite !lower_app, Hp, IH. reflexivity.
Qed.

End PyFacts.

(* ------------------------------------------------------------------ *)
(** ** Refinement policy *)

Module RefinementFacts.

Import Refinement Statements.

(** The safety loop answers [True] exactly when some entry named
    [safety_ethics] scores below 0.3. *)
Lemma safety_loop_true sc :
  safety_loop sc = true <->
  exists d, In d sc /\ dimension d = Some "safety_ethics" /\
            Py.get (score d) 1.0 < 0.3.
Proof.
  induction sc as [| d sc IH]; simpl.
  - split; [discriminate | intros (d & [] & _)].
  - destruct (dimension d) as [name |] eqn:Hname.
    + destruct (String.eqb name "safety_ethics") eqn:Hsafe.
      * apply String.eqb_eq in Hsafe. subst name.
        destruct (Py.ltb (Py.get (score d) 1.0) 0.3) eqn:Hlow.
        -- split; [intros _ | reflexivity].
           exists d. apply PyFacts.ltb_true in Hlow. auto.
        -- rewrite IH. split.
           ++ intros (d' & Hin & H). exists d'. auto.
           ++ intros (d' & [-> | Hin] & Hd & Hs).
              ** apply PyFacts.ltb_true in Hs. congruence.
              ** exists d'. auto.
      * rewrite IH. apply String.eqb_neq in Hsafe. split.
        -- intros (d' & Hin & H). exists d'. auto.
        -- intros (d' & [-> | Hin] & Hd & Hs).
           ++ congruence.
           ++ exists d'. auto.
    + rewrite IH. split.
      * intros (d' & Hin & H). exists d'. auto.
      * intros (d' & [-> | Hin] & Hd & Hs).
        -- congruence.
        -- exists d'. auto.
Qed.

(** C2: when the top-ranked variation carries a [safety_ethics] entry with
    a score strictly below 0.3, the policy answers [REJECT], whatever the
    overall score, the other entries and the media type are. *)
Theorem critical_safety_forces_reject
  (cf : CritiqueFeedback) (media_type : string)
  (top : Variation) (others : list Variation)
  (sc : list Dimension) (d : Dimension) (s : Q) :
  all_variations cf = Some (top :: others) ->
  scorecard top = Some sc ->
  In d sc ->
  dimension d = Some "safety_ethics" ->
  score d = Some s ->
  s < 0.3 ->
  _determine_strategy cf media_type = REJECT.
Proof.
  intros Hall Hsc Hin Hname Hscore Hlow.
  unfold _determine_strategy.
  assert (Hcrit : _has_critical_safety_issues cf = true).
  { unfold _has_critical_safety_issues. rewrite Hall. simpl. rewrite Hsc.
    simpl. apply safety_loop_true. exists d.
    rewrite Hscore. simpl. auto. }
  now rewrite Hcrit.
Qed.

(** The scenario of the specification: overall 0.9, safety 0.2. *)
Lemma critical_safety_forces_reject_witness :
  _determine_strategy Inputs.unsafe_but_polished "image" = REJECT /\
  _determine_strategy Inputs.unsafe_but_polished "video" = REJECT.
Proof.
  split;
    refine (critical_safety_forces_reject Inputs.unsafe_but_polished _ _ []
              _ (Inputs.entry "safety_ethics" 0.2 "harmful imagery"
                   ["violent scene"]) 0.2 eq_refl eq_refl _ eq_refl eq_refl _);
    solve [ simpl; auto | reflexivity ].
Defined.

(** C10: a critique without variations has overall score 0.0 and no
    critical safety issue, and the policy answers [REJECT] for every media
    type. *)
Theorem empty_critique_is_rejected
  (cf : CritiqueFeedback) (media_type : string) :
  Py.get (all_variations cf) [] = [] ->
  _get_overall_score cf = 0.0 /\
  _has_critical_safety_issues cf = false /\
  _determine_strategy cf media_type = REJECT.
Proof.
  intro Hempty.
  assert (Hscore : _get_overall_score cf = 0.0).
  { unfold _get_overall_score. now rewrite Hempty. }
  assert (Hsafe : _has_critical_safety_issues cf = false).
  { unfold _has_critical_safety_issues. now rewrite Hempty. }
  repeat split; trivial.
  unfold _determine_strategy. rewrite Hsafe, Hscore. reflexivity.
Qed.

Lemma empty_critique_is_rejected_witness :
  _get_overall_score Inputs.no_variation = 0.0 /\
  _has_critical_safety_issues Inputs.no_variation = false /\
  _determine_strategy Inputs.no_variation "video" = REJECT.
Proof.
  apply (empty_critique_is_rejected Inputs.no_variation "video").
  reflexivity.
Defined.

(** With lower-case issues, the text the loop inspects is the lower-cased
    text of the entry. *)
Lemma all_text_lowercase d :
  Forall lowercase (Py.get (issues d) []) -> all_text d = entry_text d.
Proof.
  intro Hlow. unfold all_text, entry_text.
  rewrite !PyFacts.lower_app, (PyFacts.lower_join _ Hlow). reflexivity.
Qed.

(** The simple-issue loop answers [False] exactly when it meets an entry
    below 0.7 with a complex keyword in its name or in the inspected text. *)
Lemma simple_loop_false sc :
  simple_loop sc = false <->
  exists d, In d sc /\ Py.get (score d) 1.0 < 0.7 /\
    (Py.any_in complex_issue_keywords (Py.lower (Py.get (dimension d) ""))
     = true \/
     Py.any_in complex_issue_keywords (all_text d) = true).
Proof.
  induction sc as [| d sc IH].
  - simpl. split; [discriminate | intros (d & [] & _)].
  - cbn [simple_loop].
    destruct (Py.ltb (Py.get (score d) 1.0) 0.7) eqn:Hlow.
    + apply PyFacts.ltb_true in Hlow.
      destruct (Py.any_in complex_issue_keywords
                  (Py.lower (Py.get (dimension d) ""))) eqn:Hname;
      destruct (Py.any_in complex_issue_keywords (all_text d)) eqn:Htext;
      cbn [andb].
      1-3: split; [intros _ | reflexivity];
           exists d; rewrite ?Hname, ?Htext; simpl; auto.
      rewrite IH. split.
      * intros (d' & Hin & H). exists d'. simpl. auto.
      * intros (d' & [<- | Hin] & Hs & [H | H]).
        -- congruence.
        -- congruence.
        -- exists d'. auto.
        -- exists d'. auto.
    + apply PyFacts.ltb_false in Hlow.
      rewrite !andb_false_r, IH. split.
      * intros (d' & Hin & H). exists d'. simpl. auto.
      * intros (d' & [<- | Hin] & Hs & H).
        -- lra.
        -- exists d'. auto.
Qed.

(** A mid-range overall score comes from a top-ranked variation. *)
Lemma mid_range_has_top cf :
  0.3 <= _get_overall_score cf ->
  _has_only_simple_issues cf = simple_loop (top_scorecard cf).
Proof.
  unfold _get_overall_score, _has_only_simple_issues, top_scorecard.
  destruct (Py.get (all_variations cf) []) as [| top others];
    [intro H; lra | reflexivity].
Qed.

(** C3, as the code decides it: for a critique with
    [0.3 <= overall_score < 0.7], no critical safety issue and lower-case
    issue texts, the policy answers [ENHANCE] exactly when the media type
    is ["image"] and no entry of the top-ranked scorecard is a complex
    entry (one scoring below 0.7 that has a complex keyword in its
    dimension name or in its feedback and issue text); in every other case
    it answers [REGENERATE].  The simple keyword list plays no part. *)
Theorem enhance_iff_image_without_complex_entry
  (cf : CritiqueFeedback) (media_type : string) :
  _has_critical_safety_issues cf = false ->
  0.3 <= _get_overall_score cf ->
  _get_overall_score cf < 0.7 ->
  lowercase_issues cf ->
  (_determine_strategy cf media_type = ENHANCE <->
   media_type = "image" /\
   Forall (fun d => ~ complex_entry d) (top_scorecard cf)) /\
  (_determine_strategy cf media_type = REGENERATE <->
   ~ (media_type = "image" /\
      Forall (fun d => ~ complex_entry d) (top_scorecard cf))).
Proof.
  intros Hsafe Hge Hlt Hlower.
  assert (Hsimple : _has_only_simple_issues cf = true <->
                    Forall (fun d => ~ complex_entry d) (top_scorecard cf)).
  { rewrite (mid_range_has_top cf Hge).
    unfold lowercase_issues in Hlower.
    rewrite Forall_forall in Hlower. rewrite Forall_forall.
    split.
    - intros Htrue d Hin (Hs & Hkw).
      assert (Hfalse : simple_loop (top_scorecard cf) = false).
      { apply simple_loop_false. exists d.
        rewrite (all_text_lowercase d (Hlower d Hin)). auto. }
      congruence.
    - intro Hnone.
      destruct (simple_loop (top_scorecard cf)) eqn:Hloop; trivial.
      apply simple_loop_false in Hloop.
      destruct Hloop as (d & Hin & Hs & Hkw).
      rewrite (all_text_lowercase d (Hlower d Hin)) in Hkw.
      exfalso. apply (Hnone d Hin). split; assumption. }
  unfold _determine_strategy. rewrite Hsafe.
  apply PyFacts.ltb_false in Hge. rewrite Hge.
  apply PyFacts.geb_false in Hlt. rewrite Hlt.
  destruct (String.eqb media_type "image") eqn:Hmedia.
  - apply String.eqb_eq in Hmedia.
    destruct (_has_only_simple_issues cf) eqn:Honly; cbn [andb].
    + assert (Hall := proj1 Hsimple eq_refl).
      split; split; intro H; auto; try discriminate.
      exfalso. apply H. auto.
    + assert (Hnot : ~ Forall (fun d => ~ complex_entry d) (top_scorecard cf)).
      { intro Hall. apply Hsimple in Hall. discriminate. }
      split; split; intro H; try discriminate; auto.
      * exfalso. apply Hnot, H.
      * intros [_ Hall]. exact (Hnot Hall).
  - apply String.eqb_neq in Hmedia. cbn [andb].
    split; split; intro H; try discriminate; auto.
    + exfalso. apply Hmedia, H.
    + intros [Himg _]. exact (Hmedia Himg).
Qed.

(** A blurred picture scored on quality only: enhanced as an image,
    regenerated as a video. *)
Lemma enhance_iff_image_without_complex_entry_witness :
  _determine_strategy Inputs.soft_focus "image" = ENHANCE /\
  _determine_strategy Inputs.soft_focus "video" = REGENERATE.
Proof.
  split.
  - apply (enhance_iff_image_without_complex_entry Inputs.soft_focus "image").
    + reflexivity.
    + vm_compute. discriminate.
    + reflexivity.
    + repeat constructor.
    + split; [reflexivity |].
      repeat constructor. intros [_ [H | H]]; vm_compute in H; discriminate.
  - apply (enhance_iff_image_without_complex_entry Inputs.soft_focus "video").
    + reflexivity.
    + vm_compute. discriminate.
    + reflexivity.
    + repeat constructor.
    + intros [H _]. discriminate.
Defined.

(** C3 as the specification words it fails on the code in both directions.
    [Inputs.off_centre]: a mid-range image critique whose only flagged
    issue matches neither keyword set is enhanced, not regenerated.
    [Inputs.blurred]: a mid-range image critique whose flagged issues all
    match the simple set only is regenerated, not enhanced, because the
    dimension [brand_alignment] scores below 0.7. *)
Lemma keyword_rule_as_worded_fails :
  (_has_critical_safety_issues Inputs.off_centre = false /\
   0.3 <= _get_overall_score Inputs.off_centre < 0.7 /\
   existsb unclassified (flagged_issues Inputs.off_centre) = true /\
   _determine_strategy Inputs.off_centre "image" = ENHANCE) /\
  (_has_critical_safety_issues Inputs.blurred = false /\
   0.3 <= _get_overall_score Inputs.blurred < 0.7 /\
   forallb simple_only (flagged_issues Inputs.blurred) = true /\
   _determine_strategy Inputs.blurred "image" = REGENERATE).
Proof.
  repeat split; try reflexivity; vm_compute; discriminate.
Qed.

End RefinementFacts.

(* ------------------------------------------------------------------ *)
(** ** Scorer *)

Module ScorerFacts.

Import Scorer Statements.

Lemma fold_left_Qplus xs :
  forall acc, fold_left Qplus xs acc == acc + total xs.
Proof.
  induction xs as [| x xs IH]; intro acc; simpl.
  - ring.
  - rewrite IH. unfold total. simpl. ring.
Qed.

Lemma sum_total xs : Py.sum xs == total xs.
Proof. unfold Py.sum. rewrite fold_left_Qplus. ring. Qed.


Lemma total_scale (c : Q) (ds : ScoreDict) :
  total (map (fun item => snd item * c) ds) == total (scores ds) * c.
Proof.
  induction ds as [| item ds IH].
  - simpl. ring.
  - unfold scores. cbn [map total fold_right].
    fold (total (map (fun item => snd item * c) ds)).
    fold (total (map snd ds)). rewrite IH. unfold scores. ring.
Qed.

Lemma len_pos {A : Type} (l : list A) : l <> [] -> 0 < Py.len l.
Proof.
  destruct l as [| a l]; [congruence | intros _].
  unfold Py.len. change 0 with (inject_Z 0). rewrite <- Zlt_Qlt.
  simpl. lia.
Qed.

(** Every present dimension has the weight [1.0 / n] in the equal-weights
    dict. *)
Lemma dict_get_equal_weights (ds : ScoreDict) (n default : Q) (key : string) :
  In key (map fst ds) ->
  dict_get (equal_weights ds n) key default = 1.0 / n.
Proof.
  induction ds as [| [k v] ds IH]; simpl; [intros [] |].
  intros [-> | Hin].
  - now rewrite String.eqb_refl.
  - destruct (String.eqb k key); [reflexivity | exact (IH Hin)].
Qed.


Lemma equal_weights_products (ds : ScoreDict) (n default : Q) :
  map (fun item => snd item * dict_get (equal_weights ds n) (fst item) default)
    ds
  = map (fun item => snd item * (1.0 / n)) ds.
Proof.
  apply map_ext_in. intros item Hin.
  now rewrite (dict_get_equal_weights ds n default (fst item)
                 (in_map fst _ _ Hin)).
Qed.

Lemma min_Qmin a b : Py.min a b == Qmin a b.
Proof.
  unfold Py.min. destruct (Py.ltb b a) eqn:E.
  - apply PyFacts.ltb_true in E. rewrite Q.min_r; [reflexivity | lra].
  - apply PyFacts.ltb_false in E. rewrite Q.min_l; [reflexivity | lra].
Qed.

Lemma max_Qmax a b : Py.max a b == Qmax a b.
Proof.
  unfold Py.max. destruct (Py.ltb a b) eqn:E.
  - apply PyFacts.ltb_true in E. rewrite Q.max_r; [reflexivity | lra].
  - apply PyFacts.ltb_false in E. rewrite Q.max_l; [reflexivity | lra].
Qed.

(** The final [max(0.0, min(1.0, x))] is the clamp to [[0, 1]]. *)
Lemma clamp_correct x y : x == y -> Py.max 0.0 (Py.min 1.0 x) == clamp y.
Proof.
  intro H. unfold clamp. rewrite max_Qmax, min_Qmin, H.
  assert (Hone : 1.0 == 1) by reflexivity.
  assert (Hzero : 0.0 == 0) by reflexivity.
  now rewrite Hone, Hzero.
Qed.


Lemma equal_weights_weighted_sum (ds : ScoreDict) (default : Q) :
  ds <> [] ->
  Py.sum (map (fun item =>
                 snd item *
                 dict_get (equal_weights ds (Py.len ds)) (fst item) default)
            ds) == mean (scores ds).
Proof.
  intro Hne. rewrite equal_weights_products, sum_total, total_scale.
  assert (Hpos := len_pos ds Hne).
  unfold mean, scores. rewrite length_map. fold (Py.len ds). field. lra.
Qed.



(** C6 on the code: when the supplied weights sum to zero over the present
    dimensions, the fallback takes the equal weights but keeps the number
    of dimensions as the divisor, so the overall score is the mean divided
    once more by the number of dimensions (clamped). *)
Theorem zero_weights_divide_the_mean_again (ds weights : ScoreDict) :
  ds <> [] ->
  weight_sum ds weights == 0 ->
  calculate_overall_score ds (Some weights)
  == clamp (mean (scores ds) / Py.len ds).
Proof.
  intros Hne Hzero.
  assert (Hmean := equal_weights_weighted_sum ds (1.0 / Py.len ds) Hne).
  assert (Hlen := len_pos ds Hne).
  unfold weight_sum in Hzero.
  destruct ds as [| item rest]; [congruence |].
  unfold calculate_overall_score.
  set (ds := item :: rest) in *.
  set (T := Py.sum (map (fun i => dict_get weights (fst i) 0.0) ds)) in *.
  apply Qeq_bool_iff in Hzero. rewrite Hzero.
  cbn [fst snd].
  assert (Hpos : Py.ltb 0 (Py.len ds) = true) by now apply PyFacts.ltb_true.
  rewrite Hpos. apply clamp_correct.
  now rewrite Hmean.
Qed.

(** Two dimensions at 0.8 with zero weights: the overall score is 0.4,
    where the mean is 0.8. *)
Lemma zero_weights_divide_the_mean_again_witness :
  calculate_overall_score Inputs.two_dims (Some Inputs.zero_weights)
  == clamp (mean (scores Inputs.two_dims) / Py.len Inputs.two_dims).
Proof.
  apply (zero_weights_divide_the_mean_again Inputs.two_dims
           Inputs.zero_weights).
  - discriminate.
  - reflexivity.
Defined.

Lemma zero_weights_halve_the_score :
  weight_sum Inputs.two_dims Inputs.zero_weights == 0 /\
  calculate_overall_score Inputs.two_dims (Some Inputs.zero_weights) == 0.4 /\
  calculate_overall_score Inputs.two_dims None == 0.8 /\
  clamp (mean (scores Inputs.two_dims)) == 0.8.
Proof. repeat split. Qed.

(** The dimension loop passes exactly when no score is below the floor. *)
Lemma dimension_loop_true (ds : ScoreDict) (floor : Q) :
  dimension_loop ds floor = true <->
  Forall (fun s => floor <= s) (scores ds).
Proof.
  unfold scores.
  induction ds as [| [dim s] ds IH]; simpl.
  - split; [constructor | reflexivity].
  - destruct (Py.ltb s floor) eqn:E.
    + apply PyFacts.ltb_true in E. split; [discriminate |].
      intro H. inversion H; subst. simpl in *. lra.
    + apply PyFacts.ltb_false in E. rewrite IH. split.
      * intro H. constructor; assumption.
      * intro H. now inversion H.
Qed.

Lemma minimum_glb (floor x : Q) (xs : list Q) :
  floor <= minimum x xs <-> Forall (fun s => floor <= s) (x :: xs).
Proof.
  revert x. induction xs as [| y xs IH]; intro x; simpl.
  - split; [intro H; repeat constructor; exact H | intro H; now inversion H].
  - rewrite Q.min_glb_iff, IH. split.
    + intros [Hx Hrest]. constructor; assumption.
    + intro H. inversion H; subst. split; assumption.
Qed.

(** C4: with the default thresholds and a non-empty score dict, the verdict
    is [True] exactly when the overall score is at least 0.6 and the least
    dimension score is at least 0.4; a dimension below 0.4 fails the
    variation whatever the overall score is. *)
Theorem pass_iff_overall_and_floor (overall : Q) (ds : ScoreDict) :
  ds <> [] ->
  (determine_pass_fail overall ds min_overall_default min_dimension_default
   = true <->
   0.6 <= overall /\ 0.4 <= min_score ds) /\
  (forall dim s, In (dim, s) ds -> s < 0.4 ->
     determine_pass_fail overall ds min_overall_default min_dimension_default
     = false).
Proof.
  intro Hne.
  assert (Hiff :
    determine_pass_fail overall ds min_overall_default min_dimension_default
    = true <-> 0.6 <= overall /\ Forall (fun s => 0.4 <= s) (scores ds)).
  { unfold determine_pass_fail, min_overall_default, min_dimension_default.
    destruct (Py.ltb overall 0.6) eqn:E.
    - apply PyFacts.ltb_true in E. split; [discriminate | intros [H _]; lra].
    - apply PyFacts.ltb_false in E. rewrite dimension_loop_true. tauto. }
  split.
  - rewrite Hiff. unfold min_score.
    destruct ds as [| [dim s] rest]; [congruence |].
    unfold scores. cbn [map snd]. now rewrite minimum_glb.
  - intros dim s Hin Hlow.
    apply not_true_is_false. intro Hpass.
    apply Hiff in Hpass. destruct Hpass as [_ Hall].
    rewrite Forall_forall in Hall.
    assert (H : 0.4 <= s).
    { apply Hall. unfold scores. change s with (snd (dim, s)).
      now apply in_map. }
    lra.
Qed.

(** The scenarios of the specification: four dimensions at 0.9 pass; with
    brand alignment at 0.2 the mean is 0.725 and the variation fails. *)
Lemma pass_iff_overall_and_floor_witness :
  determine_pass_fail 0.9 Inputs.all_good min_overall_default
    min_dimension_default = true /\
  determine_pass_fail 0.725 Inputs.one_bad min_overall_default
    min_dimension_default = false.
Proof.
  split.
  - apply (pass_iff_overall_and_floor 0.9 Inputs.all_good).
    + discriminate.
    + split; vm_compute; discriminate.
  - apply (proj2 (pass_iff_overall_and_floor 0.725 Inputs.one_bad
                    ltac:(discriminate)) "brand_alignment" 0.2).
    + simpl. auto.
    + reflexivity.
Defined.

End ScorerFacts.

(* ------------------------------------------------------------------ *)
(** ** Ranker *)

Module RankerFacts.

Import Models Ranker Statements.

Section SortedReverse.
Context {A : Type} (key : A -> Q).

(** Descending order of the keys. *)
Let desc (a b : A) : Prop := key b <= key a.

Lemma insert_desc_perm (x : A) (xs : list A) :
  Permutation (insert_desc key x xs) (x :: xs).
Proof.
  induction xs as [| y xs IH]; simpl; [reflexivity |].
  destruct (Py.geb (key x) (key y)); [reflexivity |].
  rewrite IH. apply perm_swap.
Qed.

Lemma sorted_reverse_perm (xs : list A) :
  Permutation (sorted_reverse key xs) xs.
Proof.
  induction xs as [| x xs IH]; simpl; [reflexivity |].
  rewrite insert_desc_perm. now constructor.
Qed.

Lemma insert_desc_sorted (x : A) (xs : list A) :
  StronglySorted desc xs -> StronglySorted desc (insert_desc key x xs).
Proof.
  induction 1 as [| y xs Hsorted IH Hall]; simpl.
  - repeat constructor.
  - destruct (Py.geb (key x) (key y)) eqn:E.
    + apply PyFacts.geb_true in E.
      constructor; [constructor; assumption |].
      constructor; [exact E |].
      eapply Forall_impl; [| exact Hall].
      intros z Hz. unfold desc in *. lra.
    + apply PyFacts.geb_false in E.
      constructor; [exact IH |].
      rewrite (insert_desc_perm x xs).
      constructor; [unfold desc; lra | exact Hall].
Qed.

Lemma sorted_reverse_sorted (xs : list A) :
  StronglySorted desc (sorted_reverse key xs).
Proof.
  induction xs as [| x xs IH]; simpl; [constructor |].
  now apply insert_desc_sorted.
Qed.

(** Inserting leaves the entries of each key in their order. *)
Lemma insert_desc_stable (q : Q) (x : A) (xs : list A) :
  filter (fun a => Qeq_bool (key a) q) (insert_desc key x xs)
  = filter (fun a => Qeq_bool (key a) q) (x :: xs).
Proof.
  induction xs as [| y xs IH]; [reflexivity |].
  cbn [insert_desc].
  destruct (Py.geb (key x) (key y)) eqn:E; [reflexivity |].
  apply PyFacts.geb_false in E.
  cbn [filter] in *. rewrite IH.
  destruct (Qeq_bool (key x) q) eqn:Ex;
    destruct (Qeq_bool (key y) q) eqn:Ey; try reflexivity.
  apply Qeq_bool_iff in Ex, Ey. lra.
Qed.

Lemma sorted_reverse_stable (q : Q) (xs : list A) :
  filter (fun a => Qeq_bool (key a) q) (sorted_reverse key xs)
  = filter (fun a => Qeq_bool (key a) q) xs.
Proof.
  induction xs as [| x xs IH]; [reflexivity |].
  cbn [sorted_reverse]. rewrite insert_desc_stable.
  cbn [filter]. now rewrite IH.
Qed.

(** Two descending lists that agree, for every key, on the entries with
    that key in their order are the same list: a stable sort has one
    possible output. *)
Lemma stable_sorted_unique (s1 s2 : list A) :
  StronglySorted desc s1 ->
  StronglySorted desc s2 ->
  (forall q, filter (fun a => Qeq_bool (key a) q) s1
             = filter (fun a => Qeq_bool (key a) q) s2) ->
  s1 = s2.
Proof.
  intro H1. revert s2.
  induction H1 as [| a s1 Hs1 IH Ha]; intros s2 H2 Hf.
  - destruct s2 as [| b s2]; [reflexivity |].
    specialize (Hf (key b)). cbn [filter] in Hf.
    rewrite Qeq_bool_refl in Hf. discriminate.
  - destruct H2 as [| b s2 Hs2 Hb].
    + specialize (Hf (key a)). cbn [filter] in Hf.
      rewrite Qeq_bool_refl in Hf. discriminate.
    + assert (Hab : a = b).
      { pose proof (Hf (key a)) as Fa. cbn [filter] in Fa.
        rewrite Qeq_bool_refl in Fa.
        destruct (Qeq_bool (key b) (key a)) eqn:Eba;
          [now injection Fa |].
        pose proof (Hf (key b)) as Fb. cbn [filter] in Fb.
        rewrite Qeq_bool_refl in Fb.
        destruct (Qeq_bool (key a) (key b)) eqn:Eab.
        { apply Qeq_bool_iff in Eab. symmetry in Eab.
          apply Qeq_bool_iff in Eab. congruence. }
        assert (Ina : In a s2).
        { apply (filter_In (fun x => Qeq_bool (key x) (key a))).
          rewrite <- Fa. now left. }
        assert (Inb : In b s1).
        { apply (filter_In (fun x => Qeq_bool (key x) (key b))).
          rewrite Fb. now left. }
        rewrite Forall_forall in Ha, Hb.
        pose proof (Ha b Inb) as Hle1. pose proof (Hb a Ina) as Hle2.
        unfold desc in Hle1, Hle2.
        assert (Heq : key b == key a) by lra.
        apply Qeq_bool_iff in Heq. congruence. }
      subst b. f_equal. apply IH; [exact Hs2 |].
      intro q. specialize (Hf q). cbn [filter] in Hf.
      destruct (Qeq_bool (key a) q); [now injection Hf | exact Hf].
Qed.

(** So every stable descending sort, Python's among them, agrees with
    [sorted_reverse]. *)
Lemma sorted_reverse_is_the_stable_sort (xs sorted : list A) :
  StronglySorted desc sorted ->
  (forall q, filter (fun a => Qeq_bool (key a) q) sorted
             = filter (fun a => Qeq_bool (key a) q) xs) ->
  sorted = sorted_reverse key xs.
Proof.
  intros Hsorted Hstable.
  apply stable_sorted_unique;
    [exact Hsorted | apply sorted_reverse_sorted |].
  intro q. now rewrite Hstable, sorted_reverse_stable.
Qed.

End SortedReverse.

Lemma assign_ranks_unranked (i : Z) (l : list VariationResult) :
  map unranked (assign_ranks i l) = map unranked l.
Proof.
  revert i. induction l as [| v l IH]; intro i; simpl; [reflexivity |].
  now rewrite IH.
Qed.

Lemma assign_ranks_scores (i : Z) (l : list VariationResult) :
  map overall_score (assign_ranks i l) = map overall_score l.
Proof.
  revert i. induction l as [| v l IH]; intro i; simpl; [reflexivity |].
  now rewrite IH.
Qed.

Lemma assign_ranks_ranks (i : Z) (l : list VariationResult) :
  map rank (assign_ranks i l)
  = map (fun k => Some (i + Z.of_nat k)%Z) (seq 1 (length l)).
Proof.
  revert i. induction l as [| v l IH]; intro i; [reflexivity |].
  cbn [assign_ranks map length seq rank set_rank].
  rewrite IH, <- (seq_shift (length l) 1), map_map.
  change (Z.of_nat 1) with 1%Z. apply f_equal.
  apply map_ext. intro k. apply f_equal. lia.
Qed.

Lemma filter_unranked (q : Q) (l : list VariationResult) :
  filter (scored q) (map unranked l) = map unranked (filter (scored q) l).
Proof.
  induction l as [| v l IH]; [reflexivity |].
  cbn [map filter]. rewrite IH.
  change (scored q (unranked v)) with (scored q v).
  destruct (scored q v); reflexivity.
Qed.

Lemma sorted_scores (l : list VariationResult) :
  StronglySorted (fun a b => overall_score b <= overall_score a) l ->
  StronglySorted (fun a b => b <= a) (map overall_score l).
Proof.
  induction 1 as [| v l Hsorted IH Hall]; simpl; constructor; trivial.
  rewrite Forall_map. exact Hall.
Qed.

(** C8: ranking by overall score returns the input variations, changed in
    their rank only, sorted by overall score in descending order; the
    variations of each score keep their input order; and the ranks along
    the result are 1, 2, ..., N. *)
Theorem ranking_is_stable_descending_contiguous
  (variation_results : list VariationResult) :
  let ranked := rank_variations variation_results "overall" in
  Permutation (map unranked ranked) (map unranked variation_results) /\
  StronglySorted (fun a b => b <= a) (map overall_score ranked) /\
  (forall q, filter (scored q) (map unranked ranked)
             = filter (scored q) (map unranked variation_results)) /\
  map rank ranked = ranks_upto (length variation_results).
Proof.
  unfold rank_variations. cbn [String.eqb Ascii.eqb Bool.eqb].
  cbv zeta.
  repeat split.
  - rewrite assign_ranks_unranked.
    apply Permutation_map, sorted_reverse_perm.
  - rewrite assign_ranks_scores.
    apply sorted_scores, sorted_reverse_sorted.
  - intro q. rewrite assign_ranks_unranked, !filter_unranked.
    f_equal. apply (sorted_reverse_stable overall_score q).
  - rewrite assign_ranks_ranks.
    rewrite (Permutation_length (sorted_reverse_perm overall_score _)).
    reflexivity.
Qed.

(** The scenario of the specification: scores 0.8, 0.8, 0.6 get the ranks
    1, 2, 3 and the two 0.8s keep their input order. *)
Lemma three_variations_ranked :
  map (fun v => (variation_id v, rank v))
    (rank_variations Inputs.three_variations "overall")
  = [("var_1", Some 1%Z); ("var_2", Some 2%Z); ("var_3", Some 3%Z)].
Proof. reflexivity. Qed.

End RankerFacts.

(* ------------------------------------------------------------------ *)
(** ** Critique agent *)

Module CritiqueFacts.

Import Exc Models Critique Statements.








(** The fan-out itself has no guard: an [evaluate] call that raises ends
    the critique, and [execute] reports the failure. *)
Lemma fan_out_has_no_guard :
  evaluate_variations Inputs.evaluators_safety_raising [Inputs.ad_fine] None
  = Raise "safety evaluator crashed" /\
  execute Inputs.evaluators_safety_raising [Inputs.ad_fine] None
  = mkAgentResult false None (Some "safety evaluator crashed").
Proof. split; reflexivity. Qed.

Lemma count_passed_bounds (vs : list VariationResult) :
  (0 <= count_passed vs <= Z.of_nat (length vs))%Z.
Proof.
  induction vs as [| v vs IH]; cbn [count_passed length]; [lia |].
  rewrite Nat2Z.inj_succ. destruct (passed v); lia.
Qed.

(** C9: in every report the critique agent produces, the passed and the
    failed counts add up to the total, and the best variation, when there
    is one, is the first of the ranked variations and has rank 1. *)
Theorem report_counts_add_up_and_best_has_rank_one
  (E : Evaluators) (ads : list AdFile) (run_id : option string)
  (report : CritiqueReport) :
  evaluate_variations E ads run_id = Return report ->
  (passed_variations report + failed_variations report
   = total_variations report)%Z /\
  (0 <= passed_variations report)%Z /\
  (0 <= failed_variations report)%Z /\
  (forall best,
     best_variation report = Some best ->
     rank best = Some 1%Z /\ hd_error (all_variations report) = Some best).
Proof.
  unfold evaluate_variations.
  destruct (evaluate_loop E 0 ads []) as [vs | e]; cbn [bind];
    [| discriminate].
  intro H. injection H as <-.
  cbn [passed_variations failed_variations total_variations best_variation
       all_variations].
  pose proof (count_passed_bounds vs) as Hcount.
  split; [lia | split; [lia | split; [lia |]]].
  intros best Hbest. split.
  - unfold Ranker.rank_variations in Hbest.
    cbn [String.eqb Ascii.eqb Bool.eqb] in Hbest.
    destruct (Ranker.sorted_reverse overall_score vs) as [| top others];
      cbn [Ranker.assign_ranks] in Hbest.
    + discriminate.
    + injection Hbest as <-. reflexivity.
  - destruct (Ranker.rank_variations vs "overall"); cbn [hd_error];
      congruence.
Qed.

Lemma report_counts_add_up_and_best_has_rank_one_witness :
  (passed_variations Inputs.sample_report
   + failed_variations Inputs.sample_report
   = total_variations Inputs.sample_report)%Z /\
  (0 <= passed_variations Inputs.sample_report)%Z /\
  (0 <= failed_variations Inputs.sample_report)%Z /\
  (forall best,
     best_variation Inputs.sample_report = Some best ->
     rank best = Some 1%Z /\
     hd_error (all_variations Inputs.sample_report) = Some best).
Proof.
  apply (report_counts_add_up_and_best_has_rank_one (evaluators true)
           [Inputs.ad_fine; Inputs.ad_missing; Inputs.ad_safety_down]
           (Some "run_1") Inputs.sample_report).
  vm_compute. reflexivity.
Defined.

End CritiqueFacts.

(* ------------------------------------------------------------------ *)
(** ** Orchestrator *)

Module OrchestratorFacts.

Import Exc Orchestrator Statements.

(** The router on its own honours the budget: asked to regenerate with a
    counter that has reached [max_retries], it answers [end_]. *)
Lemma router_ends_at_budget (state : WorkflowState) :
  refinement_strategy state = Some "regenerate" ->
  should_continue state
  = if (retry_count state >=? max_retries state)%Z then end_ else regenerate.
Proof.
  intro H. unfold should_continue. rewrite H. reflexivity.
Qed.

(** No node touches the retry counter or the budget. *)
Lemma node_keeps_counter (A : Agents) (node : Node) (step : nat)
  (state : WorkflowState) :
  retry_count (node_function A node step state) = retry_count state /\
  max_retries (node_function A node step state) = max_retries state.
Proof.
  destruct node; cbn [node_function].
  - unfold brand_kit_node.
    destruct (brand_kit_agent A step) as [r | e];
      [destruct (bk_success r) |]; split; reflexivity.
  - unfold generation_node.
    destruct (generation_agent A step) as [r | e];
      [destruct (gen_success r); [destruct (gen_variations r) |] |];
      split; reflexivity.
  - unfold critique_node.
    destruct (falsy (generated_ad_path state)); [split; reflexivity |].
    destruct (critique_agent A step) as [r | e];
      [destruct (crit_success r); [destruct (crit_report r) |] |];
      split; reflexivity.
  - unfold refinement_node.
    destruct (critique_feedback state); [| split; reflexivity].
    destruct (falsy (generated_ad_path state)); [split; reflexivity |].
    destruct (refinement_agent A step) as [r | e]; split; reflexivity.
Qed.

(** Whatever the agents answer, the state the graph holds, which is what
    the router reads, keeps the retry counter it started with. *)
Lemma stream_keeps_counter (A : Agents) (limit : nat) :
  forall step node channels,
    Forall (fun output =>
              retry_count (snd output) = retry_count channels /\
              max_retries (snd output) = max_retries channels)
      (fst (stream A limit step node channels)).
Proof.
  induction limit as [| limit IH]; intros step node channels;
    cbn [stream]; [constructor |].
  destruct (node_keeps_counter A node step channels) as [Hc Hm].
  destruct (next_node node (node_function A node step channels)) as [node' |];
    cbn [fst].
  - constructor; [split; assumption |].
    eapply Forall_impl; [| apply IH]. cbn beta.
    intros output [H1 H2]. rewrite H1, H2. split; assumption.
  - repeat constructor; assumption.
Qed.

(** So with a positive budget the router never turns a regeneration into
    [end_], whatever the agents answer and however long the run is. *)
Lemma router_never_ends_a_regeneration (A : Agents) (limit : nat)
  (run_id : string) (budget : Z) :
  (0 < budget)%Z ->
  Forall (fun output =>
            refinement_strategy (snd output) = Some "regenerate" ->
            should_continue (snd output) = regenerate)
    (fst (stream A limit 0 brand_kit (initial_state run_id budget))).
Proof.
  intro Hpos.
  eapply Forall_impl; [| apply stream_keeps_counter].
  cbn beta. intros output [Hc Hm] Hregen.
  rewrite (router_ends_at_budget _ Hregen), Hc, Hm.
  cbn [initial_state retry_count max_retries].
  destruct (0 >=? budget)%Z eqn:E; [lia | reflexivity].
Qed.

(** Runs that end by themselves: an approval completes the run, and the
    result reports no retry even after two regenerations; with a budget of
    0 the first regeneration request ends the run as failed. *)
Lemma runs_that_end :
  execute Inputs.approve_at_once 25 "run_1" max_retries_default
  = mkFinalResult "run_1" "completed" true (Some "ads/ad_1.mp4")
      (Some Inputs.soft_focus) (Some 0.5) (Some 0%Z) None /\
  execute Inputs.approve_at_third 25 "run_1" max_retries_default
  = mkFinalResult "run_1" "completed" true (Some "ads/ad_1.mp4")
      (Some Inputs.soft_focus) (Some 0.5) (Some 0%Z) None /\
  execute Inputs.always_regenerate 25 "run_1" 0
  = mkFinalResult "run_1" "failed" false (Some "ads/ad_1.mp4")
      (Some Inputs.soft_focus) (Some 0.5) (Some 1%Z)
      (Some "Maximum retries reached").
Proof. repeat split. Qed.




End OrchestratorFacts.

(* ------------------------------------------------------------------ *)
(** ** Scorer: bounds, weights and the verdict *)

Module ScorerMore.

Import Scorer Statements Notions.

Lemma clamp_in_unit (x : Q) : in_unit (Py.max 0.0 (Py.min 1.0 x)).
Proof.
  unfold in_unit, Py.max, Py.min.
  destruct (Py.ltb x 1.0) eqn:E1.
  - apply PyFacts.ltb_true in E1.
    destruct (Py.ltb 0.0 x) eqn:E0.
    + apply PyFacts.ltb_true in E0. lra.
    + lra.
  - apply PyFacts.ltb_false in E1.
    destruct (Py.ltb 0.0 1.0) eqn:E0; lra.
Qed.

Lemma clamp_of_unit (x : Q) :
  in_unit x -> Py.max 0.0 (Py.min 1.0 x) == x.
Proof.
  intros [H0 H1]. unfold Py.max, Py.min.
  destruct (Py.ltb x 1.0) eqn:E1.
  - destruct (Py.ltb 0.0 x) eqn:E0; [reflexivity |].
    apply PyFacts.ltb_false in E0. lra.
  - apply PyFacts.ltb_false in E1.
    destruct (Py.ltb 0.0 1.0) eqn:E0; [lra |].
    apply PyFacts.ltb_false in E0. lra.
Qed.


(** X1: whatever the scores and the weights are (missing, negative or
    out-of-range ones included), the overall score lies in [[0, 1]]. *)
Theorem overall_score_in_unit (ds : ScoreDict) (weights : option ScoreDict) :
  in_unit (calculate_overall_score ds weights).
Proof.
  destruct ds as [| item rest].
  - cbn. unfold in_unit. lra.
  - unfold calculate_overall_score. apply clamp_in_unit.
Qed.




(** X3: the overall score is 0.0 for an empty score dict, whatever the
    weights, and for weights whose sum over the dimensions is negative. *)
Theorem overall_score_is_zero_without_positive_weight
  (ds weights : ScoreDict) :
  calculate_overall_score [] (Some weights) = 0.0 /\
  calculate_overall_score [] None = 0.0 /\
  (weight_sum ds weights < 0 ->
   calculate_overall_score ds (Some weights) == 0).
Proof.
  split; [reflexivity | split; [reflexivity |]].
  intro Hneg. unfold weight_sum in Hneg.
  destruct ds as [| item rest]; [reflexivity |].
  unfold calculate_overall_score.
  set (ds := item :: rest) in *.
  set (T := Py.sum (map (fun i => dict_get weights (fst i) 0.0) ds)) in *.
  destruct (Qeq_bool T 0) eqn:Hzero.
  { apply Qeq_bool_iff in Hzero. lra. }
  cbn [fst snd].
  assert (Hlt : Py.ltb 0 T = false) by (apply PyFacts.ltb_false; lra).
  rewrite Hlt. reflexivity.
Qed.

Lemma overall_score_is_zero_without_positive_weight_witness :
  calculate_overall_score Inputs.two_dims
    (Some [("brand_alignment", 1); ("visual_quality", -2)]) == 0.
Proof.
  apply (overall_score_is_zero_without_positive_weight Inputs.two_dims
           [("brand_alignment", 1); ("visual_quality", -2)]).
  reflexivity.
Defined.












(** X6: [create_scorecard] stores a score within [[0, 1]], which is the
    given score when that one is within [[0, 1]] already, and always stores
    lists for the issues and the suggestions. *)
Theorem create_scorecard_clamps
  (dim : string) (s : Q) (text : string) (found hints : option (list string)) :
  in_unit (Models.score (create_scorecard dim s text found hints)) /\
  (in_unit s -> Models.score (create_scorecard dim s text found hints) == s) /\
  (s < 0 -> Models.score (create_scorecard dim s text found hints) == 0) /\
  (1 < s -> Models.score (create_scorecard dim s text found hints) == 1) /\
  Models.issues (create_scorecard dim s text found hints) <> None /\
  Models.suggestions (create_scorecard dim s text found hints) <> None.
Proof.
  cbn [create_scorecard Models.score Models.issues Models.suggestions].
  split; [apply clamp_in_unit |].
  split; [apply clamp_of_unit |].
  split; [| split; [| split; discriminate]].
  - intro Hneg. unfold Py.max, Py.min.
    destruct (Py.ltb s 1.0) eqn:E1.
    + destruct (Py.ltb 0.0 s) eqn:E0; [| reflexivity].
      apply PyFacts.ltb_true in E0. lra.
    + apply PyFacts.ltb_false in E1. lra.
  - intro Hbig. unfold Py.max, Py.min.
    destruct (Py.ltb s 1.0) eqn:E1.
    + apply PyFacts.ltb_true in E1. lra.
    + reflexivity.
Qed.

Lemma create_scorecard_clamps_witness :
  Models.score (create_scorecard "visual_quality" 0.5 "soft" None None)
  == 0.5 /\
  Models.score (create_scorecard "visual_quality" (-2) "soft" None None)
  == 0 /\
  Models.score (create_scorecard "visual_quality" 3 "soft" None None) == 1.
Proof.
  split; [| split].
  - apply (create_scorecard_clamps "visual_quality" 0.5 "soft" None None).
    split; vm_compute; discriminate.
  - apply (create_scorecard_clamps "visual_quality" (-2) "soft" None None).
    reflexivity.
  - apply (create_scorecard_clamps "visual_quality" 3 "soft" None None).
    reflexivity.
Defined.

End ScorerMore.

(* ------------------------------------------------------------------ *)
(** ** Ranker: strategies, re-ranking and the derived views *)

Module RankerMore.

Import Models Ranker Statements.

Lemma assign_ranks_twice (i j : Z) (l : list VariationResult) :
  assign_ranks i (assign_ranks j l) = assign_ranks i l.
Proof.
  revert i j. induction l as [| v l IH]; intros i j; [reflexivity |].
  cbn [assign_ranks]. now rewrite IH.
Qed.

Lemma assign_ranks_length (i : Z) (l : list VariationResult) :
  length (assign_ranks i l) = length l.
Proof.
  revert i. induction l as [| v l IH]; intro i; [reflexivity |].
  cbn [assign_ranks length]. now rewrite IH.
Qed.

(** A list with descending scores is left as it is by the sort. *)
Lemma sorted_reverse_of_sorted (l : list VariationResult) :
  StronglySorted (fun a b => b <= a) (map overall_score l) ->
  sorted_reverse overall_score l = l.
Proof.
  intro Hsorted. symmetry.
  apply RankerFacts.sorted_reverse_is_the_stable_sort; [| reflexivity].
  clear - Hsorted.
  induction l as [| v l IH]; [constructor |].
  cbn [map] in Hsorted. inversion Hsorted as [| ? ? Hrest Hall]; subst.
  constructor; [now apply IH |].
  rewrite Forall_map in Hall. exact Hall.
Qed.

Lemma ranked_by_overall (variation_results : list VariationResult) :
  StronglySorted (fun a b => b <= a)
    (map overall_score (rank_variations variation_results "overall")) /\
  map rank (rank_variations variation_results "overall")
  = ranks_upto (length variation_results).
Proof.
  unfold rank_variations. cbn [String.eqb Ascii.eqb Bool.eqb]. split.
  - rewrite RankerFacts.assign_ranks_scores.
    apply RankerFacts.sorted_scores, RankerFacts.sorted_reverse_sorted.
  - rewrite RankerFacts.assign_ranks_ranks.
    rewrite (Permutation_length
               (RankerFacts.sorted_reverse_perm overall_score _)).
    reflexivity.
Qed.

(** X7: whatever the strategy name, ranking returns the input variations,
    changed in their rank only, with the ranks 1, 2, ..., N along the
    result; ["weighted"] ranks as ["overall"] does, and any other name
    leaves the input order as it is. *)
Theorem ranking_under_any_strategy
  (variation_results : list VariationResult) (strategy : string) :
  Permutation (map unranked (rank_variations variation_results strategy))
    (map unranked variation_results) /\
  map rank (rank_variations variation_results strategy)
  = ranks_upto (length variation_results) /\
  rank_variations variation_results "weighted"
  = rank_variations variation_results "overall" /\
  (strategy <> "overall" -> strategy <> "weighted" ->
   map unranked (rank_variations variation_results strategy)
   = map unranked variation_results).
Proof.
  unfold rank_variations.
  split; [| split; [| split]].
  - rewrite RankerFacts.assign_ranks_unranked.
    destruct (String.eqb strategy "overall");
      [| destruct (String.eqb strategy "weighted")];
      try (apply Permutation_map, RankerFacts.sorted_reverse_perm).
    reflexivity.
  - rewrite RankerFacts.assign_ranks_ranks.
    assert (Hlen : forall l, Permutation l variation_results ->
                             length l = length variation_results)
      by (intros l Hl; now apply Permutation_length).
    destruct (String.eqb strategy "overall");
      [| destruct (String.eqb strategy "weighted")];
      try (rewrite (Hlen _ (RankerFacts.sorted_reverse_perm _ _)));
      reflexivity.
  - reflexivity.
  - intros Hoverall Hweighted.
    apply String.eqb_neq in Hoverall, Hweighted.
    rewrite Hoverall, Hweighted.
    apply RankerFacts.assign_ranks_unranked.
Qed.

Lemma ranking_under_any_strategy_witness :
  map unranked (rank_variations Inputs.three_variations "by_name")
  = map unranked Inputs.three_variations.
Proof.
  apply (ranking_under_any_strategy Inputs.three_variations "by_name");
    discriminate.
Defined.

(** X8: ranking is idempotent: ranking a ranked list again by overall score
    changes nothing. *)
Theorem ranking_twice_is_ranking_once
  (variation_results : list VariationResult) :
  rank_variations (rank_variations variation_results "overall") "overall"
  = rank_variations variation_results "overall".
Proof.
  unfold rank_variations. cbn [String.eqb Ascii.eqb Bool.eqb].
  rewrite sorted_reverse_of_sorted.
  - apply assign_ranks_twice.
  - rewrite RankerFacts.assign_ranks_scores.
    apply RankerFacts.sorted_scores, RankerFacts.sorted_reverse_sorted.
Qed.

Lemma firstn_of_seq (n start len : nat) :
  firstn n (seq start len) = seq start (Nat.min n len).
Proof.
  revert start len. induction n as [| n IH]; intros start len;
    [reflexivity |].
  destruct len as [| len]; [reflexivity |].
  cbn [seq firstn Nat.min]. now rewrite IH.
Qed.

Lemma sorted_app_order (l1 l2 : list Q) :
  StronglySorted (fun a b => b <= a) (l1 ++ l2) ->
  forall a b, In a l1 -> In b l2 -> b <= a.
Proof.
  induction l1 as [| x l1 IH]; intros Hsorted a b Ha Hb; [destruct Ha |].
  cbn [app] in Hsorted. inversion Hsorted as [| ? ? Hrest Hall]; subst.
  destruct Ha as [<- | Ha].
  - rewrite Forall_forall in Hall. apply Hall, in_or_app. now right.
  - now apply (IH Hrest a b).
Qed.

(** X9: [get_top_variations] returns the first [min top_n N] variations of
    the ranking, with the ranks 1, 2, ..., and none of the variations it
    leaves out scores more than one it returns. *)
Theorem top_variations_are_the_best
  (variation_results : list VariationResult) (top_n : nat) :
  let ranked := rank_variations variation_results "overall" in
  let top := get_top_variations variation_results top_n in
  length top = Nat.min top_n (length variation_results) /\
  map rank top = ranks_upto (Nat.min top_n (length variation_results)) /\
  ranked = (top ++ skipn top_n ranked)%list /\
  (forall a b, In a top -> In b (skipn top_n ranked) ->
     overall_score b <= overall_score a).
Proof.
  cbv zeta. unfold get_top_variations.
  set (ranked := rank_variations variation_results "overall").
  destruct (ranked_by_overall variation_results) as (Hsorted & Hranks).
  fold ranked in Hsorted, Hranks.
  assert (Hlen : length ranked = length variation_results).
  { rewrite <- (length_map rank), Hranks. unfold ranks_upto.
    now rewrite length_map, length_seq. }
  split; [| split; [| split]].
  - now rewrite length_firstn, Hlen.
  - rewrite <- firstn_map, Hranks. unfold ranks_upto.
    now rewrite firstn_map, firstn_of_seq.
  - symmetry. apply firstn_skipn.
  - intros a b Ha Hb.
    rewrite <- (firstn_skipn top_n ranked), map_app in Hsorted.
    apply (sorted_app_order _ _ Hsorted);
      now apply in_map.
Qed.

End RankerMore.

(* ------------------------------------------------------------------ *)
(** ** Critique agent: ranges, the safety caps and the report *)

Module CritiqueMore.

Import Exc Models Critique Statements Notions.

(** Turns the float comparisons of the goal into facts on [Q]. *)
Ltac compare_floats :=
  repeat match goal with
    | |- context [Py.ltb ?a ?b] =>
        let E := fresh "E" in
        destruct (Py.ltb a b) eqn:E;
        [apply PyFacts.ltb_true in E | apply PyFacts.ltb_false in E]
    end.

Lemma evaluate_loop_forall (E : Evaluators) (P : VariationResult -> Prop) :
  (forall i ad v, evaluate_one E i ad = Return v -> P v) ->
  forall ads i acc vs,
    Forall P acc ->
    evaluate_loop E i ads acc = Return vs ->
    Forall P vs.
Proof.
  intros Hone ads.
  induction ads as [| ad ads IH]; intros i acc vs Hacc Hloop;
    cbn [evaluate_loop] in Hloop.
  - now injection Hloop as <-.
  - destruct (negb (exists_ ad)); [now apply (IH (S i) acc) |].
    destruct (evaluate_one E i ad) as [v | e] eqn:Hv; cbn [bind] in Hloop;
      [| discriminate].
    apply (IH (S i) (acc ++ [v])%list); [| exact Hloop].
    apply Forall_app. split; [exact Hacc |].
    repeat constructor. now apply (Hone i ad).
Qed.

Lemma assign_ranks_forall (P : VariationResult -> Prop) :
  (forall v r, P v -> P (set_rank v r)) ->
  forall i l, Forall P l -> Forall P (Ranker.assign_ranks i l).
Proof.
  intros Hrank i l. revert i.
  induction l as [| v l IH]; intros i Hall; cbn [Ranker.assign_ranks];
    [constructor |].
  inversion Hall; subst. constructor; [now apply Hrank | now apply IH].
Qed.

Lemma rank_variations_forall (P : VariationResult -> Prop) :
  (forall v r, P v -> P (set_rank v r)) ->
  forall l strategy,
    Forall P l -> Forall P (Ranker.rank_variations l strategy).
Proof.
  intros Hrank l strategy Hall. unfold Ranker.rank_variations.
  apply (assign_ranks_forall P Hrank).
  destruct (String.eqb strategy "overall");
    [| destruct (String.eqb strategy "weighted")]; trivial;
    (eapply Permutation_Forall;
     [apply Permutation_sym, RankerFacts.sorted_reverse_perm | exact Hall]).
Qed.

(** What [evaluate_variations] returns, in terms of the evaluated list. *)
Lemma evaluate_variations_inv (E : Evaluators) (ads : list AdFile)
  (run_id : option string) (report : CritiqueReport) :
  evaluate_variations E ads run_id = Return report ->
  exists vs,
    evaluate_loop E 0 ads [] = Return vs /\
    report
    = mkCritiqueReport (or_unknown run_id) (Z.of_nat (length vs))
        (count_passed vs) (Z.of_nat (length vs) - count_passed vs)%Z
        (hd_error (Ranker.rank_variations vs "overall"))
        (Ranker.rank_variations vs "overall").
Proof.
  unfold evaluate_variations.
  destruct (evaluate_loop E 0 ads []) as [vs | e]; cbn [bind];
    [| discriminate].
  intro H. injection H as <-. exists vs. split; reflexivity.
Qed.

(** The scores of one evaluated variation are within [[0, 1]]. *)
Lemma evaluate_one_in_unit (E : Evaluators) (i : nat) (ad : AdFile)
  (v : VariationResult) :
  evaluate_one E i ad = Return v ->
  in_unit (overall_score v) /\
  Forall (fun c => in_unit (score c)) (scorecard v).
Proof.
  unfold evaluate_one.
  destruct (brand_evaluator E ad) as [b | e]; cbn [bind]; [| discriminate].
  destruct (quality_evaluator E ad) as [q | e]; cbn [bind]; [| discriminate].
  destruct (clarity_evaluator E ad) as [c | e]; cbn [bind]; [| discriminate].
  destruct (safety_evaluator E ad) as [s | e]; cbn [bind]; [| discriminate].
  intro H. injection H as <-.
  cbn [overall_score scorecard]. split.
  - apply ScorerMore.clamp_in_unit.
  - cbn [create_scorecards_from_evaluations map].
    repeat constructor; apply ScorerMore.clamp_in_unit.
Qed.

(** X10: in every report the critique agent produces, with any evaluators
    and any scores they return, every overall score and every ScoreCard
    score lies in [[0, 1]], the range the response models require. *)
Theorem report_scores_are_in_unit
  (E : Evaluators) (ads : list AdFile) (run_id : option string)
  (report : CritiqueReport) :
  evaluate_variations E ads run_id = Return report ->
  Forall (fun v =>
            in_unit (overall_score v) /\
            Forall (fun c => in_unit (score c)) (scorecard v))
    (all_variations report) /\
  (forall best, best_variation report = Some best ->
     in_unit (overall_score best)).
Proof.
  intro Hreport.
  destruct (evaluate_variations_inv E ads run_id report Hreport)
    as (vs & Hloop & ->).
  cbn [all_variations best_variation].
  assert (Hall : Forall (fun v =>
                   in_unit (overall_score v) /\
                   Forall (fun c => in_unit (score c)) (scorecard v))
                   (Ranker.rank_variations vs "overall")).
  { apply rank_variations_forall; [intros v r H; exact H |].
    apply (evaluate_loop_forall E _ (evaluate_one_in_unit E) ads 0 [] vs);
      [constructor | exact Hloop]. }
  split; [exact Hall |].
  intros best Hbest.
  destruct (Ranker.rank_variations vs "overall") as [| top others];
    [discriminate |].
  injection Hbest as <-. inversion Hall; subst. tauto.
Qed.

Lemma report_scores_are_in_unit_witness :
  Forall (fun v =>
            in_unit (overall_score v) /\
            Forall (fun c => in_unit (score c)) (scorecard v))
    (all_variations Inputs.sample_report) /\
  (forall best, best_variation Inputs.sample_report = Some best ->
     in_unit (overall_score best)).
Proof.
  apply (report_scores_are_in_unit (evaluators true)
           [Inputs.ad_fine; Inputs.ad_missing; Inputs.ad_safety_down]
           (Some "run_1") Inputs.sample_report).
  vm_compute. reflexivity.
Defined.

Lemma min_le_r (a b : Q) : Py.min a b <= b.
Proof. unfold Py.min. compare_floats; lra. Qed.

Lemma min_lt_iff (a b c : Q) : c <= b -> (Py.min a b < c <-> a < c).
Proof. intro H. unfold Py.min. compare_floats; split; intro; lra. Qed.

Lemma clamp_le (x c : Q) :
  0 <= c -> x <= c -> Py.max 0.0 (Py.min 1.0 x) <= c.
Proof.
  intros Hc Hx. unfold Py.max.
  assert (Hmin : Py.min 1.0 x <= c).
  { unfold Py.min. compare_floats; lra. }
  destruct (Py.ltb 0.0 (Py.min 1.0 x)); lra.
Qed.

Lemma clamp_lt_iff (x c : Q) :
  0 < c -> c <= 1 -> (Py.max 0.0 (Py.min 1.0 x) < c <-> x < c).
Proof.
  intros Hc Hc1.
  assert (Hmin : Py.min 1.0 x < c <-> x < c).
  { unfold Py.min. compare_floats; split; intro; lra. }
  unfold Py.max.
  destruct (Py.ltb 0.0 (Py.min 1.0 x)) eqn:E; [exact Hmin |].
  apply PyFacts.ltb_false in E. split; intro H; [| lra].
  apply Hmin. lra.
Qed.

(** The score [SafetyEvaluator.evaluate] returns when its three checks
    answer. *)
Lemma safety_score_value (a : Analyses) (h s m : Q) (hf sf mf : string)
  (hi si mi : list string) :
  harmful_content a = Return (h, hf, hi) ->
  stereotypes a = Return (s, sf, si) ->
  misleading_claims a = Return (m, mf, mi) ->
  eval_score (safety_evaluate a)
  = Py.max 0.0
      (Py.min 1.0
         (if (Py.ltb h 0.3 || Py.ltb s 0.3)%bool
          then Py.min (Py.sum [h; s; m] / Py.len [h; s; m]) 0.3
          else if (Py.ltb h 0.5 || Py.ltb s 0.5)%bool
          then Py.min (Py.sum [h; s; m] / Py.len [h; s; m]) 0.5
          else Py.sum [h; s; m] / Py.len [h; s; m])).
Proof.
  intros Hh Hs Hm. unfold safety_evaluate, safety_try.
  rewrite Hh, Hs, Hm. reflexivity.
Qed.

Lemma average_of_three (h s m : Q) :
  Py.sum [h; s; m] / Py.len [h; s; m] == (h + s + m) / 3.
Proof.
  unfold Py.sum, Py.len. cbn [fold_left length Z.of_nat].
  change (inject_Z (Z.pos (Pos.of_succ_nat 2))) with 3. field.
Qed.

Lemma safety_caps (a : Analyses) (h s m : Q) (hf sf mf : string)
  (hi si mi : list string) :
  harmful_content a = Return (h, hf, hi) ->
  stereotypes a = Return (s, sf, si) ->
  misleading_claims a = Return (m, mf, mi) ->
  (h < 0.3 \/ s < 0.3 -> eval_score (safety_evaluate a) <= 0.3) /\
  (h < 0.5 \/ s < 0.5 -> eval_score (safety_evaluate a) <= 0.5) /\
  (0.5 <= h -> 0.5 <= s ->
   eval_score (safety_evaluate a)
   == Py.max 0.0 (Py.min 1.0 ((h + s + m) / 3))).
Proof.
  intros Hh Hs Hm.
  rewrite (safety_score_value a h s m hf sf mf hi si mi Hh Hs Hm).
  pose proof (average_of_three h s m) as Havg.
  set (avg := Py.sum [h; s; m] / Py.len [h; s; m]) in *. clearbody avg.
  split; [| split].
  - intros Hlow.
    assert (E : (Py.ltb h 0.3 || Py.ltb s 0.3)%bool = true).
    { apply orb_true_iff.
      destruct Hlow as [H | H]; [left | right]; now apply PyFacts.ltb_true. }
    rewrite E. apply clamp_le; [lra | apply min_le_r].
  - intros Hlow.
    destruct (Py.ltb h 0.3 || Py.ltb s 0.3)%bool.
    + apply clamp_le; [lra |]. pose proof (min_le_r avg 0.3). lra.
    + assert (E : (Py.ltb h 0.5 || Py.ltb s 0.5)%bool = true).
      { apply orb_true_iff.
        destruct Hlow as [H | H]; [left | right];
          now apply PyFacts.ltb_true. }
      rewrite E. apply clamp_le; [lra | apply min_le_r].
  - intros H1 H2.
    assert (E1 : Py.ltb h 0.3 = false) by (apply PyFacts.ltb_false; lra).
    assert (E2 : Py.ltb s 0.3 = false) by (apply PyFacts.ltb_false; lra).
    assert (E3 : Py.ltb h 0.5 = false) by (apply PyFacts.ltb_false; lra).
    assert (E4 : Py.ltb s 0.5 = false) by (apply PyFacts.ltb_false; lra).
    rewrite E1, E2, E3, E4. cbn [orb].
    rewrite !ScorerFacts.max_Qmax, !ScorerFacts.min_Qmin.
    now rewrite Havg.
Qed.

(** X11: when the three safety checks answer, a harmful-content or
    stereotype score below 0.3 caps the safety score at 0.3, and one below
    0.5 caps it at 0.5; with both at 0.5 or more the safety score is the
    clamped mean of the three scores, whatever the misleading-claims score
    is. *)
Theorem safety_score_is_capped (a : Analyses) (h s m : Q) (hf sf mf : string)
  (hi si mi : list string) :
  harmful_content a = Return (h, hf, hi) ->
  stereotypes a = Return (s, sf, si) ->
  misleading_claims a = Return (m, mf, mi) ->
  (h < 0.3 \/ s < 0.3 -> eval_score (safety_evaluate a) <= 0.3) /\
  (h < 0.5 \/ s < 0.5 -> eval_score (safety_evaluate a) <= 0.5) /\
  (0.5 <= h -> 0.5 <= s ->
   eval_score (safety_evaluate a)
   == Py.max 0.0 (Py.min 1.0 ((h + s + m) / 3))).
Proof. exact (safety_caps a h s m hf sf mf hi si mi). Qed.

Lemma safety_score_is_capped_witness :
  eval_score (safety_evaluate Examples.analyses_harmful) <= 0.3.
Proof.
  refine (proj1 (safety_score_is_capped Examples.analyses_harmful
                   0.2 1.0 1.0 _ _ _ _ _ _ eq_refl eq_refl eq_refl) _).
  left. reflexivity.
Defined.

(** X12: when the three safety checks answer, the safety score is below
    0.3, the level at which the refinement agent sees a critical safety
    issue, exactly when the mean of the three scores is below 0.3: a cap
    alone leaves the score at 0.3. *)
Theorem safety_score_is_critical_iff_mean_is
  (a : Analyses) (h s m : Q) (hf sf mf : string) (hi si mi : list string) :
  harmful_content a = Return (h, hf, hi) ->
  stereotypes a = Return (s, sf, si) ->
  misleading_claims a = Return (m, mf, mi) ->
  (eval_score (safety_evaluate a) < 0.3 <-> (h + s + m) / 3 < 0.3).
Proof.
  intros Hh Hs Hm.
  rewrite (safety_score_value a h s m hf sf mf hi si mi Hh Hs Hm).
  pose proof (average_of_three h s m) as Havg.
  set (avg := Py.sum [h; s; m] / Py.len [h; s; m]) in *. clearbody avg.
  rewrite <- Havg. clear Havg.
  rewrite clamp_lt_iff by lra.
  destruct (Py.ltb h 0.3 || Py.ltb s 0.3)%bool;
    [| destruct (Py.ltb h 0.5 || Py.ltb s 0.5)%bool];
    try reflexivity; apply min_lt_iff; lra.
Qed.

Lemma safety_score_is_critical_iff_mean_is_witness :
  ~ eval_score (safety_evaluate Examples.analyses_harmful) < 0.3.
Proof.
  intro Hlow.
  apply (safety_score_is_critical_iff_mean_is Examples.analyses_harmful
           0.2 1.0 1.0 _ _ _ _ _ _ eq_refl eq_refl eq_refl) in Hlow.
  vm_compute in Hlow. discriminate.
Defined.

(** A dimension below the floor fails the verdict. *)
Lemma low_dimension_fails (overall : Q) (ds : Scorer.ScoreDict)
  (floor bar : Q) (dim : string) (s : Q) :
  In (dim, s) ds -> s < floor ->
  Scorer.determine_pass_fail overall ds bar floor = false.
Proof.
  intros Hin Hlow. unfold Scorer.determine_pass_fail.
  destruct (Py.ltb overall bar); [reflexivity |].
  apply not_true_is_false. intro Hloop.
  apply ScorerFacts.dimension_loop_true in Hloop.
  rewrite Forall_forall in Hloop.
  assert (H : floor <= s).
  { apply Hloop. unfold scores. change s with (snd (dim, s)).
    now apply in_map. }
  lra.
Qed.

(** X13: when the three safety checks answer and the harmful-content or the
    stereotype score is below 0.3, the variation does not pass, whatever
    the other evaluators find: the capped safety score is below the
    dimension floor of 0.4. *)
Theorem unsafe_content_fails_the_variation
  (brand_kit : bool) (i : nat) (ad : AdFile) (h s m : Q)
  (hf sf mf : string) (hi si mi : list string) :
  harmful_content (analyses ad) = Return (h, hf, hi) ->
  stereotypes (analyses ad) = Return (s, sf, si) ->
  misleading_claims (analyses ad) = Return (m, mf, mi) ->
  h < 0.3 \/ s < 0.3 ->
  exists v,
    evaluate_one (evaluators brand_kit) i ad = Return v /\
    passed v = false.
Proof.
  intros Hh Hs Hm Hlow.
  eexists. split; [reflexivity |]. cbn [passed].
  apply (low_dimension_fails _ _ _ _ "safety_ethics"
           (eval_score (safety_evaluate (analyses ad)))).
  - cbn [In]. auto.
  - pose proof (proj1 (safety_caps (analyses ad) h s m hf sf mf hi si mi
                         Hh Hs Hm) Hlow) as Hcap.
    unfold Scorer.min_dimension_default. lra.
Qed.

Lemma unsafe_content_fails_the_variation_witness :
  exists v,
    evaluate_one (evaluators true) 0 Examples.ad_harmful = Return v /\
    passed v = false.
Proof.
  apply (unsafe_content_fails_the_variation true 0 Examples.ad_harmful
           0.2 1.0 1.0 _ _ _ _ _ _ eq_refl eq_refl eq_refl).
  left. reflexivity.
Defined.




Lemma evaluate_one_name (E : Evaluators) (i : nat) (ad : AdFile)
  (v : VariationResult) :
  evaluate_one E i ad = Return v -> variation_id v = variation_name i.
Proof.
  unfold evaluate_one.
  destruct (brand_evaluator E ad) as [b | e]; cbn [bind]; [| discriminate].
  destruct (quality_evaluator E ad) as [q | e]; cbn [bind]; [| discriminate].
  destruct (clarity_evaluator E ad) as [c | e]; cbn [bind]; [| discriminate].
  destruct (safety_evaluator E ad) as [s | e]; cbn [bind]; [| discriminate].
  intro H. now injection H as <-.
Qed.

(** The loop appends one variation for each file that exists, named after
    the position of the file in the input list. *)
Lemma evaluate_loop_names (E : Evaluators) (ads : list AdFile) :
  forall i acc vs,
    evaluate_loop E i ads acc = Return vs ->
    map variation_id vs
    = (map variation_id acc ++ existing_names i ads)%list.
Proof.
  induction ads as [| ad ads IH]; intros i acc vs Hloop;
    cbn [evaluate_loop existing_names] in *.
  - injection Hloop as <-. now rewrite app_nil_r.
  - destruct (exists_ ad); cbn [negb] in Hloop; [| now apply IH].
    destruct (evaluate_one E i ad) as [v | e] eqn:Hv; cbn [bind] in Hloop;
      [| discriminate].
    rewrite (IH _ _ _ Hloop), map_app, <- app_assoc. cbn [map app].
    now rewrite (evaluate_one_name E i ad v Hv).
Qed.

Lemma existing_names_length (ads : list AdFile) :
  forall i, length (existing_names i ads) = length (filter exists_ ads).
Proof.
  induction ads as [| ad ads IH]; intro i; cbn [existing_names filter];
    [reflexivity |].
  destruct (exists_ ad); cbn [length]; now rewrite IH.
Qed.

Lemma evaluate_loop_of_missing (E : Evaluators) (ads : list AdFile) :
  Forall (fun ad => exists_ ad = false) ads ->
  forall i acc, evaluate_loop E i ads acc = Return acc.
Proof.
  induction 1 as [| ad ads Had Hall IH]; intros i acc;
    cbn [evaluate_loop]; [reflexivity |].
  rewrite Had. cbn [negb]. apply IH.
Qed.

Lemma assign_ranks_names (i : Z) (l : list VariationResult) :
  map variation_id (Ranker.assign_ranks i l) = map variation_id l.
Proof.
  revert i. induction l as [| v l IH]; intro i; [reflexivity |].
  cbn [Ranker.assign_ranks map]. now rewrite IH.
Qed.

(** X15: a file that does not exist is skipped without a word in the
    report: the report counts the files that exist, its variations are
    named [var_{i+1}] after the positions [i] of these files in the input
    list, and when no file exists the critique still succeeds, with the
    empty report, and calls no evaluator. *)
Theorem missing_files_are_skipped
  (E : Evaluators) (ads : list AdFile) (run_id : option string) :
  (forall report,
     evaluate_variations E ads run_id = Return report ->
     total_variations report = Z.of_nat (length (filter exists_ ads)) /\
     Permutation (map variation_id (all_variations report))
       (existing_names 0 ads)) /\
  (Forall (fun ad => exists_ ad = false) ads ->
   evaluate_variations E ads run_id = Return (empty_report run_id)).
Proof.
  split.
  - intros report Hreport.
    destruct (evaluate_variations_inv E ads run_id report Hreport)
      as (vs & Hloop & ->).
    cbn [total_variations all_variations].
    pose proof (evaluate_loop_names E ads 0 [] vs Hloop) as Hnames.
    cbn [map app] in Hnames. split.
    + rewrite <- (length_map variation_id), Hnames.
      now rewrite existing_names_length.
    + rewrite <- Hnames. unfold Ranker.rank_variations.
      cbn [String.eqb Ascii.eqb Bool.eqb].
      rewrite assign_ranks_names.
      apply Permutation_map, RankerFacts.sorted_reverse_perm.
  - intro Hmissing. unfold evaluate_variations.
    rewrite (evaluate_loop_of_missing E ads Hmissing 0 []).
    reflexivity.
Qed.

Lemma missing_files_are_skipped_witness :
  (total_variations Inputs.sample_report = 2%Z /\
   Permutation (map variation_id (all_variations Inputs.sample_report))
     ["var_1"; "var_3"]) /\
  evaluate_variations Inputs.evaluators_safety_raising [Inputs.ad_missing]
    None
  = Return (empty_report None).
Proof.
  split.
  - apply (proj1 (missing_files_are_skipped (evaluators true)
                    [Inputs.ad_fine; Inputs.ad_missing;
                     Inputs.ad_safety_down] (Some "run_1"))
             Inputs.sample_report).
    vm_compute. reflexivity.
  - apply (proj2 (missing_files_are_skipped
                    Inputs.evaluators_safety_raising [Inputs.ad_missing]
                    None)).
    repeat constructor.
Defined.

Lemma filter_length_perm {A : Type} (f : A -> bool) (l l' : list A) :
  Permutation l l' -> length (filter f l) = length (filter f l').
Proof.
  induction 1 as [| x l l' Hperm IH | x y l | l l' l'' H1 IH1 H2 IH2];
    cbn [filter].
  - reflexivity.
  - destruct (f x); cbn [length]; now rewrite IH.
  - destruct (f x); destruct (f y); reflexivity.
  - now rewrite IH1.
Qed.

Lemma filter_assign_ranks_length (f : VariationResult -> bool) :
  (forall v r, f (set_rank v r) = f v) ->
  forall i l,
    length (filter f (Ranker.assign_ranks i l)) = length (filter f l).
Proof.
  intros Hf i l. revert i.
  induction l as [| v l IH]; intro i; [reflexivity |].
  cbn [Ranker.assign_ranks filter]. rewrite Hf.
  destruct (f v); cbn [length]; now rewrite IH.
Qed.

Lemma count_passed_filter (vs : list VariationResult) :
  count_passed vs = Z.of_nat (length (filter passed vs)).
Proof.
  induction vs as [| v vs IH]; [reflexivity |].
  cbn [count_passed filter]. destruct (passed v); [| exact IH].
  cbn [length]. rewrite Nat2Z.inj_succ, IH. lia.
Qed.

(** X16: the counts of a report agree with the ranker's view of its ranked
    list: [passed_variations] is the number of variations that
    [get_passed_variations] returns on [all_variations],
    [failed_variations] the number of the others, and [total_variations]
    the length of [all_variations]. *)
Theorem report_counts_match_the_ranked_list
  (E : Evaluators) (ads : list AdFile) (run_id : option string)
  (report : CritiqueReport) :
  evaluate_variations E ads run_id = Return report ->
  passed_variations report
  = Z.of_nat (length (Ranker.get_passed_variations (all_variations report)))
  /\
  failed_variations report
  = Z.of_nat
      (length (filter (fun v => negb (passed v)) (all_variations report)))
  /\
  total_variations report = Z.of_nat (length (all_variations report)).
Proof.
  intro Hreport.
  destruct (evaluate_variations_inv E ads run_id report Hreport)
    as (vs & _ & ->).
  cbn [passed_variations failed_variations total_variations all_variations].
  unfold Ranker.get_passed_variations, Ranker.rank_variations.
  cbn [String.eqb Ascii.eqb Bool.eqb].
  pose proof (RankerFacts.sorted_reverse_perm overall_score vs) as Hperm.
  rewrite !filter_assign_ranks_length by reflexivity.
  rewrite !(filter_length_perm _ _ _ Hperm).
  rewrite RankerMore.assign_ranks_length, (Permutation_length Hperm).
  rewrite count_passed_filter.
  split; [reflexivity | split; [| reflexivity]].
  rewrite <- Nat2Z.inj_sub.
  - f_equal. clear. induction vs as [| v vs IH]; [reflexivity |].
    cbn [filter length]. destruct (passed v); cbn [negb length]; [exact IH |].
    pose proof (filter_length_le passed vs). lia.
  - apply filter_length_le.
Qed.

Lemma report_counts_match_the_ranked_list_witness :
  passed_variations Inputs.sample_report
  = Z.of_nat
      (length
         (Ranker.get_passed_variations
            (all_variations Inputs.sample_report)))
  /\
  failed_variations Inputs.sample_report
  = Z.of_nat
      (length
         (filter (fun v => negb (passed v))
            (all_variations Inputs.sample_report)))
  /\
  total_variations Inputs.sample_report
  = Z.of_nat (length (all_variations Inputs.sample_report)).
Proof.
  apply (report_counts_match_the_ranked_list (evaluators true)
           [Inputs.ad_fine; Inputs.ad_missing; Inputs.ad_safety_down]
           (Some "run_1") Inputs.sample_report).
  vm_compute. reflexivity.
Defined.

End CritiqueMore.

(* ------------------------------------------------------------------ *)
(** ** From the critique report to the refinement decision *)

Module HandoffFacts.

Import Exc Models Critique Statements Notions.



Lemma head_is_greatest (l : list VariationResult) :
  StronglySorted (fun a b => b <= a) (map overall_score l) ->
  match l with
  | [] => True
  | top :: _ => Forall (fun v => overall_score v <= overall_score top) l
  end.
Proof.
  destruct l as [| top others]; [trivial |].
  cbn [map]. intro Hsorted.
  inversion Hsorted as [| ? ? _ Hall]; subst.
  constructor; [apply Qle_refl |].
  rewrite Forall_map in Hall. exact Hall.
Qed.

(** X18: the overall score the refinement agent and the critique node read
    from a dumped report is the score of its best variation, which no
    variation of the report exceeds; it is 0.0 when nothing was
    evaluated. *)
Theorem dumped_overall_score_is_the_best
  (E : Evaluators) (ads : list AdFile) (run_id : option string)
  (report : CritiqueReport) :
  evaluate_variations E ads run_id = Return report ->
  Refinement._get_overall_score (Handoff.model_dump report)
  = match best_variation report with
    | Some best => overall_score best
    | None => 0.0
    end /\
  Forall (fun v =>
            overall_score v
            <= Refinement._get_overall_score (Handoff.model_dump report))
    (all_variations report).
Proof.
  intro Hreport.
  destruct (CritiqueMore.evaluate_variations_inv E ads run_id report Hreport)
    as (vs & _ & ->).
  cbn [best_variation all_variations].
  unfold Refinement._get_overall_score, Handoff.model_dump.
  cbn [all_variations Refinement.all_variations Py.get].
  pose proof (head_is_greatest _ (proj1 (RankerMore.ranked_by_overall vs)))
    as Hhead.
  destruct (Ranker.rank_variations vs "overall") as [| top others].
  - split; [reflexivity | constructor].
  - cbn [map hd_error Handoff.dump_variation Refinement.overall_score
         Py.get]. split; [reflexivity | exact Hhead].
Qed.

Lemma dumped_overall_score_is_the_best_witness :
  Refinement._get_overall_score (Handoff.model_dump Inputs.sample_report)
  = match best_variation Inputs.sample_report with
    | Some best => overall_score best
    | None => 0.0
    end /\
  Forall (fun v =>
            overall_score v
            <= Refinement._get_overall_score
                 (Handoff.model_dump Inputs.sample_report))
    (all_variations Inputs.sample_report).
Proof.
  apply (dumped_overall_score_is_the_best (evaluators true)
           [Inputs.ad_fine; Inputs.ad_missing; Inputs.ad_safety_down]
           (Some "run_1") Inputs.sample_report).
  vm_compute. reflexivity.
Defined.

End HandoffFacts.

(* ------------------------------------------------------------------ *)
(** ** Refinement agent: the decision table and the results *)

Module RefinementAgentFacts.

Import Exc Refinement RefinementAgent Statements.

(** X19: the policy answers [REJECT] exactly when there is a critical
    safety issue or the overall score is below 0.3, and [APPROVE] exactly
    when there is neither and the overall score is at least 0.7; it
    answers [ENHANCE] for no media type but ["image"]. *)
Theorem strategy_table (cf : CritiqueFeedback) (media_type : string) :
  (_determine_strategy cf media_type = REJECT <->
   _has_critical_safety_issues cf = true \/ _get_overall_score cf < 0.3) /\
  (_determine_strategy cf media_type = APPROVE <->
   _has_critical_safety_issues cf = false /\ 0.7 <= _get_overall_score cf) /\
  (media_type <> "image" -> _determine_strategy cf media_type <> ENHANCE).
Proof.
  unfold _determine_strategy.
  destruct (_has_critical_safety_issues cf).
  { split; [| split]; [split; auto | split | discriminate].
    - discriminate.
    - intros [H _]. discriminate. }
  destruct (Py.ltb (_get_overall_score cf) 0.3) eqn:Elow.
  { apply PyFacts.ltb_true in Elow.
    split; [| split]; [split; auto | split | discriminate].
    - discriminate.
    - intros [_ H]. lra. }
  apply PyFacts.ltb_false in Elow.
  destruct (Py.geb (_get_overall_score cf) 0.7) eqn:Ehigh.
  { apply PyFacts.geb_true in Ehigh.
    split; [| split]; [split | split; auto | discriminate].
    - discriminate.
    - intros [H | H]; [discriminate | lra]. }
  apply PyFacts.geb_false in Ehigh.
  assert (Hnot_reject : ~ (false = true \/ _get_overall_score cf < 0.3))
    by (intros [H | H]; [discriminate | lra]).
  assert (Hnot_approve : ~ (false = false /\ 0.7 <= _get_overall_score cf))
    by (intros [_ H]; lra).
  destruct (String.eqb media_type "image") eqn:Emedia; cbn [andb].
  - apply String.eqb_eq in Emedia.
    destruct (_has_only_simple_issues cf);
      (split; [| split];
       [ split; [discriminate | intro H; now apply Hnot_reject in H]
       | split; [discriminate | intro H; now apply Hnot_approve in H]
       | intro H; congruence ]).
  - split; [| split];
      [ split; [discriminate | intro H; now apply Hnot_reject in H]
      | split; [discriminate | intro H; now apply Hnot_approve in H]
      | discriminate ].
Qed.

Lemma strategy_table_witness :
  _determine_strategy Inputs.soft_focus "video" <> ENHANCE.
Proof.
  apply (strategy_table Inputs.soft_focus "video"). discriminate.
Defined.

Lemma critical_loop_in (sc : list Dimension) (d : Dimension) :
  In d sc ->
  Py.get (score d) 1.0 < 0.5 ->
  exists detail,
    In (Py.get (dimension d) "" ++ ": " ++ detail) (critical_loop sc).
Proof.
  intros Hin Hlow.
  induction sc as [| d' sc IH]; [destruct Hin |].
  cbn [critical_loop].
  destruct Hin as [-> | Hin].
  - apply PyFacts.ltb_true in Hlow. rewrite Hlow.
    eexists. left. reflexivity.
  - destruct (IH Hin) as (detail & Hdetail).
    exists detail.
    destruct (Py.ltb (Py.get (score d') 1.0) 0.5); [right |]; exact Hdetail.
Qed.

(** X20: a critique with a critical safety issue is rejected with a
    non-empty list of critical issues that names the safety dimension: one
    of its entries starts with ["safety_ethics: "]. *)
Theorem safety_reject_names_the_safety_dimension
  (cf : CritiqueFeedback) (ad_path prompt media_type : string) (w : World) :
  _has_critical_safety_issues cf = true ->
  exists found detail,
    metadata (execute ad_path cf prompt media_type w)
    = Some (CriticalIssues found) /\
    In ("safety_ethics: " ++ detail) found /\
    success (execute ad_path cf prompt media_type w) = false /\
    strategy (execute ad_path cf prompt media_type w) = "reject".
Proof.
  intro Hcrit.
  assert (Hreject : _determine_strategy cf media_type = REJECT).
  { unfold _determine_strategy. now rewrite Hcrit. }
  unfold execute. rewrite Hreject.
  cbn [_create_result metadata success strategy].
  unfold _has_critical_safety_issues in Hcrit.
  unfold _get_critical_issues.
  destruct (Py.get (all_variations cf) []) as [| top others];
    [discriminate |].
  apply RefinementFacts.safety_loop_true in Hcrit.
  destruct Hcrit as (d & Hin & Hname & Hlow).
  assert (Hhalf : Py.get (score d) 1.0 < 0.5) by lra.
  destruct (critical_loop_in _ d Hin Hhalf) as (detail & Hdetail).
  rewrite Hname in Hdetail. cbn [Py.get] in Hdetail.
  exists (critical_loop (Py.get (scorecard top) [])), detail.
  repeat split. exact Hdetail.
Qed.

Lemma safety_reject_names_the_safety_dimension_witness :
  exists found detail,
    metadata
      (execute "ads/ad_1.png" Inputs.unsafe_but_polished "a prompt" "image"
         (mkWorld (Raise "unused") (Raise "unused") (Raise "unused")))
    = Some (CriticalIssues found) /\
    In ("safety_ethics: " ++ detail) found /\
    success
      (execute "ads/ad_1.png" Inputs.unsafe_but_polished "a prompt" "image"
         (mkWorld (Raise "unused") (Raise "unused") (Raise "unused")))
    = false /\
    strategy
      (execute "ads/ad_1.png" Inputs.unsafe_but_polished "a prompt" "image"
         (mkWorld (Raise "unused") (Raise "unused") (Raise "unused")))
    = "reject".
Proof.
  apply (safety_reject_names_the_safety_dimension
           Inputs.unsafe_but_polished).
  reflexivity.
Defined.

(** X21: the result of [execute] carries the decided strategy under
    ["strategy"]; an approval succeeds and keeps the ad path; a refined
    prompt comes only with ["regenerate"], which carries no ad path; and
    for a media type other than ["image"] the image enhancer plays no
    part in the result. *)
Theorem execute_reports_the_decision
  (ad_path : string) (cf : CritiqueFeedback) (prompt media_type : string)
  (w : World) :
  strategy (execute ad_path cf prompt media_type w)
  = value (_determine_strategy cf media_type) /\
  (_determine_strategy cf media_type = APPROVE ->
   success (execute ad_path cf prompt media_type w) = true /\
   refined_ad_path (execute ad_path cf prompt media_type w)
   = if_truthy (Some ad_path)) /\
  (refined_prompt (execute ad_path cf prompt media_type w) <> None ->
   _determine_strategy cf media_type = REGENERATE) /\
  (_determine_strategy cf media_type = REGENERATE ->
   refined_ad_path (execute ad_path cf prompt media_type w) = None) /\
  (media_type <> "image" ->
   forall out cv,
     execute ad_path cf prompt media_type (mkWorld out cv (refined w))
     = execute ad_path cf prompt media_type w).
Proof.
  unfold execute.
  split; [| split; [| split; [| split]]].
  - destruct (_determine_strategy cf media_type) eqn:Hs; cbn [value].
    + unfold _enhance_ad.
      destruct (negb (String.eqb media_type "image")); [reflexivity |].
      destruct (negb (any_enhancement (_determine_enhancements cf)));
        [reflexivity |].
      destruct (output_path w) as [out | e]; [| reflexivity].
      destruct (enh_success (enhance_image (cv w) ad_path out _));
        reflexivity.
    + unfold _refine_prompt_for_regeneration.
      destruct (refined w) as [r | e]; [| reflexivity].
      destruct (refiner_success r); reflexivity.
    + reflexivity.
    + reflexivity.
  - intros ->. split; reflexivity.
  - destruct (_determine_strategy cf media_type) eqn:Hs; trivial;
      intro H; exfalso; apply H; try reflexivity.
    unfold _enhance_ad.
    destruct (negb (String.eqb media_type "image")); [reflexivity |].
    destruct (negb (any_enhancement (_determine_enhancements cf)));
      [reflexivity |].
    destruct (output_path w) as [out | e]; [| reflexivity].
    destruct (enh_success (enhance_image (cv w) ad_path out _));
      reflexivity.
  - intros ->. unfold _refine_prompt_for_regeneration.
    destruct (refined w) as [r | e]; [| reflexivity].
    destruct (refiner_success r); reflexivity.
  - intros Hmedia out cv0.
    destruct (_determine_strategy cf media_type) eqn:Hs; try reflexivity.
    unfold _enhance_ad. apply String.eqb_neq in Hmedia. now rewrite Hmedia.
Qed.

Lemma execute_reports_the_decision_witness :
  execute "ads/ad_1.mp4" Inputs.soft_focus "a prompt" "video"
    (mkWorld (Return "ads/ad_1_enhanced.mp4") (Return true)
       (Raise "model offline"))
  = execute "ads/ad_1.mp4" Inputs.soft_focus "a prompt" "video"
      (mkWorld (Raise "unused") (Raise "unused") (Raise "model offline")).
Proof.
  apply (execute_reports_the_decision "ads/ad_1.mp4" Inputs.soft_focus
           "a prompt" "video"
           (mkWorld (Raise "unused") (Raise "unused")
              (Raise "model offline"))).
  discriminate.
Defined.

(** X22: when the policy decides [ENHANCE], the enhancement succeeds
    exactly when the critique text triggers at least one enhancement, the
    output path is built and OpenCV reads and writes the image; the result
    then points to the output path and its message lists the triggered
    enhancements in the order sharpen, denoise, contrast, brightness.  In
    every other case the result keeps the ad path and reports a failure,
    still under the strategy ["enhance"]. *)
Theorem enhancement_succeeds_iff
  (ad_path : string) (cf : CritiqueFeedback) (prompt : string) (w : World) :
  _determine_strategy cf "image" = ENHANCE ->
  strategy (execute ad_path cf prompt "image" w) = "enhance" /\
  (success (execute ad_path cf prompt "image" w) = true <->
   any_enhancement (_determine_enhancements cf) = true /\
   (exists out, output_path w = Return out) /\
   cv w = Return true) /\
  (forall out,
     success (execute ad_path cf prompt "image" w) = true ->
     output_path w = Return out ->
     refined_ad_path (execute ad_path cf prompt "image" w)
     = if_truthy (Some out) /\
     message (execute ad_path cf prompt "image" w)
     = "Image enhanced: "
       ++ Py.join ", " (enabled (_determine_enhancements cf))) /\
  (success (execute ad_path cf prompt "image" w) = false ->
   refined_ad_path (execute ad_path cf prompt "image" w)
   = if_truthy (Some ad_path)).
Proof.
  intro Hs. unfold execute. rewrite Hs. unfold _enhance_ad.
  cbn [String.eqb Ascii.eqb Bool.eqb negb].
  destruct (any_enhancement (_determine_enhancements cf)) eqn:Hany;
    cbn [negb].
  2:{ cbn [_create_result strategy success refined_ad_path message].
      repeat split; try discriminate; try reflexivity.
      intros (H & _); discriminate. }
  destruct (output_path w) as [out | e].
  2:{ cbn [_create_result strategy success refined_ad_path message].
      repeat split; try discriminate; try reflexivity.
      intros (_ & (out & H) & _); discriminate. }
  destruct (cv w) as [[|] | e]; cbn [enhance_image enh_success
    enhancements_applied enh_error Py.get _create_result strategy success
    refined_ad_path message].
  - repeat split; try discriminate; try reflexivity; eauto.
    match goal with
    | Hout : Return _ = Return _ |- _ => now injection Hout as <-
    end.
  - repeat split; try discriminate; try reflexivity.
    intros (_ & _ & H); discriminate.
  - repeat split; try discriminate; try reflexivity.
    intros (_ & _ & H); discriminate.
Qed.

Lemma enhancement_succeeds_iff_witness :
  success
    (execute "ads/ad_1.png" Inputs.soft_focus "a prompt" "image"
       (mkWorld (Return "ads/ad_1_enhanced.png") (Return true)
          (Raise "unused")))
  = true /\
  success
    (execute "ads/ad_1.png" Inputs.off_centre "a prompt" "image"
       (mkWorld (Return "ads/ad_1_enhanced.png") (Return true)
          (Raise "unused")))
  <> true.
Proof.
  split.
  - apply (enhancement_succeeds_iff "ads/ad_1.png" Inputs.soft_focus
             "a prompt"
             (mkWorld (Return "ads/ad_1_enhanced.png") (Return true)
                (Raise "unused"))).
    + reflexivity.
    + split; [reflexivity | split; [eexists |]; reflexivity].
  - intro Hsuccess.
    apply (enhancement_succeeds_iff "ads/ad_1.png" Inputs.off_centre
             "a prompt"
             (mkWorld (Return "ads/ad_1_enhanced.png") (Return true)
                (Raise "unused"))) in Hsuccess.
    + destruct Hsuccess as (Hany & _). discriminate.
    + reflexivity.
Defined.

End RefinementAgentFacts.

(* ------------------------------------------------------------------ *)
(** ** Comparator *)

Module ComparatorFacts.

Import Models Comparator Statements.






End ComparatorFacts.

(* ------------------------------------------------------------------ *)
(** ** Orchestrator: whole runs *)

Module OrchestratorMore.

Import Exc Orchestrator Statements Runs.









(** X24: whatever the agents answer and whatever state the graph starts
    from, the first four supersteps run the brand-kit, generation, critique
    and refinement nodes in this order: a stage that fails does not stop
    the stages after it. *)
Theorem every_stage_runs_in_order (A : Agents) (spare step : nat)
  (channels : WorkflowState) :
  map fst (firstn 4 (fst (stream A (4 + spare) step brand_kit channels)))
  = [brand_kit; generation; critique; refinement].
Proof.
  change (4 + spare)%nat with (S (S (S (S spare)))).
  cbn [stream next_node fst snd firstn map].
  match goal with
  | |- context [match ?n with Some _ => _ | None => _ end] => destruct n
  end; reflexivity.
Qed.


Lemma falsy_true (s : option string) :
  falsy s = true -> s = None \/ s = Some "".
Proof.
  destruct s as [[| c rest] |]; cbn [falsy]; intro H;
    [now right | discriminate | now left].
Qed.














(** X30: only the generation node sets the path of the ad under critique:
    the brand-kit, critique and refinement nodes leave [generated_ad_path]
    as it is, so the file that the "enhance" route sends back to the
    critique node is the generated one, not the enhanced one. *)
Theorem only_generation_sets_the_ad_path (A : Agents) (node : Node)
  (step : nat) (state : WorkflowState) :
  node <> generation ->
  generated_ad_path (node_function A node step state)
  = generated_ad_path state.
Proof.
  intro Hnode. destruct node; [| congruence | |]; cbn [node_function].
  - unfold brand_kit_node.
    destruct (brand_kit_agent A step) as [r | e];
      [destruct (bk_success r) |]; reflexivity.
  - unfold critique_node.
    destruct (falsy (generated_ad_path state)); [reflexivity |].
    destruct (critique_agent A step) as [r | e];
      [destruct (crit_success r); [destruct (crit_report r) |] |];
      reflexivity.
  - unfold refinement_node.
    destruct (critique_feedback state); [| reflexivity].
    destruct (falsy (generated_ad_path state)); [reflexivity |].
    destruct (refinement_agent A step) as [r | e]; reflexivity.
Qed.

Lemma only_generation_sets_the_ad_path_witness :
  generated_ad_path
    (node_function always_enhance refinement 3
       (critique_node always_enhance 2
          (generation_node always_enhance 1 (initial_state "run_1" 3))))
  = generated_ad_path
      (critique_node always_enhance 2
         (generation_node always_enhance 1 (initial_state "run_1" 3))).
Proof.
  apply (only_generation_sets_the_ad_path always_enhance refinement 3).
  discriminate.
Defined.

End OrchestratorMore.
